(** * NftService: schema detection, binding cache and transfer/mint dispatch

    A shallow embedding of [packages/sdk/src/nft/nft.service.ts] and of
    [getWallet] from [packages/sdk/src/common/utils.ts].

    The service is a set of async static methods around one piece of state,
    the static [cache : Record<string, NftInfo>].  Everything else it touches
    is a collaborator reached through a call: the NFT provider, the chain
    provider factory, ethers' wallet and contract objects, the transaction
    service.  The methods are embedded as programs over those calls
    ([Prog]); an interpreter ([run]) threads the cache and an arbitrary,
    possibly stateful and possibly failing, environment that answers the
    calls, and records every cache access and every call in a trace.

    The embedding is at the level of the TypeScript types: [NftType] has the
    three members the service names, and the cache is a finite map from
    contract address to the [NftInfo] stored under it.  Two things lie
    below that level and are modelled after it, next to the first model and
    related to it: the cache is a plain object, whose reads also find the
    properties every object inherits ([cacheGet_js], [transferNft_js]), and
    the methods are async, so that operations overlap ([interleave]). *)

From stdpp Require Import base option list strings gmap.
From Stdlib Require Import ZArith.

Local Open Scope Z_scope.
Local Open Scope string_scope.
Local Open Scope list_scope.

(** ** Data model *)

(** Modelled from the spec: the declaration of [NftType] lives in [./types],
    which is not among the sources.  The members are the three the service
    names ([NftType.ERC721], [NftType.ERC1155], [NftType.UNKNOWN]); the spec
    calls them SingleOwner, MultiOwner and Unknown. *)
Inductive NftType : Set := ERC721 | ERC1155 | UNKNOWN.

#[global] Instance NftType_eq_dec : EqDecision NftType.
Proof. solve_decision. Defined.

(** What a rejected promise or a [throw] carries.  [Error m] is
    [new Error(m)]; [TypeError] is what the runtime raises on a property
    read from [undefined] (its message is engine specific and left out).
    Collaborators may reject with any such value. *)
Inductive Exn : Set :=
| Error (message : string)
| TypeError.

(** Opaque handles of ethers objects. *)
Inductive Provider : Set := ProviderHandle (id : N).
Inductive JsonRpcSigner : Set := SignerHandle (id : N).
Inductive EthersWallet : Set := WalletHandle (id : N).

(** [string | JsonRpcSigner], and what [getWallet] returns. *)
Inductive PkOrSigner : Set :=
| Pk (privateKey : string)
| RpcSigner (signer : JsonRpcSigner).

Inductive WalletT : Set :=
| OfWallet (w : EthersWallet)
| OfSigner (s : JsonRpcSigner).

(** The two typechain factories and the contract objects they connect. *)
Inductive Factory : Set := LiqERC1155__factory | LiqERC721__factory.

Record Contract : Set := {
  interface : Factory;
  address : string;
  provider : Provider;
}.

Definition AddressZero : string := "0x0000000000000000000000000000000000000000".

(** [factory.connect(address, provider)] and [contract.attach(address)]. *)
Definition connect (f : Factory) (addr : string) (p : Provider) : Contract :=
  {| interface := f; address := addr; provider := p |}.

Definition attach (c : Contract) (addr : string) : Contract :=
  {| interface := interface c; address := addr; provider := provider c |}.

(** [NftInfo], the value type of the cache. *)
Record NftInfo : Set := {
  contract : Contract;
  schema : NftType;
}.

(** Modelled from the spec: the request types are declared in [./types],
    which is not among the sources.  Their fields are the ones the service
    destructures; token ids are strings and amounts numbers, and [amounts]
    is optional (the service reads it as [amounts!]). *)
Record TransferRequest : Set := {
  contractAddress : string;
  receiver : string;
  tokenIDs : list string;
  amounts : option (list Z);
}.

Record MintERC1155Request : Set := {
  mint1155_contractAddress : string;
  mint1155_recipient : string;
  mint1155_id : string;
  mint1155_amount : Z;
}.

Record MintERC721Request : Set := {
  mint721_contractAddress : string;
  mint721_recipient : string;
  mint721_uri : string;
}.

Record CreateERC1155CollectionRequest : Set := { create1155_uri : string }.

Record CreateERC721CollectionRequest : Set := {
  tokenName : string;
  tokenSymbol : string;
}.

(** The contract methods the service populates, with their arguments as
    evaluated.  An element read [xs[0]] is [xs !! 0]: [None] stands for
    [undefined]. *)
Inductive Method : Set :=
| safeTransferFrom_address_address_uint256
    (from to : string) (tokenId : option string)
| safeBatchTransferFrom
    (from to : string) (ids : list string) (values : option (list Z))
    (data : string)
| safeTransferFrom
    (from to : string) (id : option string) (value : option Z) (data : string)
| mint (to id : string) (amount : Z) (data : string)
| safeMint (to uri : string).

(** Results of the collaborators, opaque to the service. *)
Record PopulatedTransaction : Set := { tx_to : string; tx_data : string }.

(** [{ ...tx, from: owner, chainId }] *)
Record TransactionRequest : Set := {
  populated : PopulatedTransaction;
  from : string;
  chainId : Z;
}.

Inductive PreparedTransaction : Set := Prepared (id : N).

Record TransactionResponse : Set := { hash : string }.

Record DeployedContract : Set := { deployTransaction : TransactionResponse }.

(** ** Collaborator calls *)

Inductive Call : Set :=
| GetNftType (contractAddress : string) (chainID : Z)
| GetChainProvider (chainID : Z)
| NewWallet (privateKey : string) (p : Provider)
| GetAddress (w : WalletT)
| PopulateTransaction (c : Contract) (m : Method)
| PrepareTransaction (tx : TransactionRequest) (chainId : Z)
| SendTransaction (w : WalletT) (tx : PreparedTransaction)
| Deploy (f : Factory) (w : WalletT) (args : list string).

Definition Resp (c : Call) : Set :=
  match c with
  | GetNftType _ _ => NftType
  | GetChainProvider _ => Provider
  | NewWallet _ _ => EthersWallet
  | GetAddress _ => string
  | PopulateTransaction _ _ => PopulatedTransaction
  | PrepareTransaction _ _ => PreparedTransaction
  | SendTransaction _ _ => TransactionResponse
  | Deploy _ _ _ => DeployedContract
  end.

(** ** Programs *)

(** A method body: it returns, throws, reads or writes the static cache, or
    calls a collaborator and continues with the answer.  There is no
    [try]/[catch] in the service, so a rejected call has no continuation. *)
Inductive Prog (R : Type) : Type :=
| Ret (r : R)
| Throw (e : Exn)
| CacheRead (key : string) (k : option NftInfo → Prog R)
| CacheWrite (key : string) (info : NftInfo) (k : Prog R)
| Invoke (c : Call) (k : Resp c → Prog R).

Arguments Ret {R} r.
Arguments Throw {R} e.
Arguments CacheRead {R} key k.
Arguments CacheWrite {R} key info k.
Arguments Invoke {R} c k.

Fixpoint bind {A B : Type} (p : Prog A) (f : A → Prog B) : Prog B :=
  match p with
  | Ret a => f a
  | Throw e => Throw e
  | CacheRead key k => CacheRead key (λ o, bind (k o) f)
  | CacheWrite key info k => CacheWrite key info (bind k f)
  | Invoke c k => Invoke c (λ x, bind (k x) f)
  end.

#[global] Instance Prog_ret : MRet Prog := λ _ r, Ret r.
#[global] Instance Prog_bind : MBind Prog := λ _ _ f p, bind p f.

(** [await collaborator(...)] *)
Definition call (c : Call) : Prog (Resp c) := Invoke c Ret.

(** ** Interpreter *)

Inductive Event : Type :=
| EvRead (key : string) (found : option NftInfo)
| EvWrite (key : string) (info : NftInfo)
| EvCall (c : Call) (answer : Exn + Resp c).

Inductive Outcome (R : Type) : Type :=
| Resolved (r : R)
| Rejected (e : Exn).

Arguments Resolved {R} r.
Arguments Rejected {R} e.

Record Run (W R : Type) : Type := {
  outcome : Outcome R;
  cache_after : gmap string NftInfo;
  world_after : W;
  trace : list Event;
}.

Arguments outcome {W R} _.
Arguments cache_after {W R} _.
Arguments world_after {W R} _.
Arguments trace {W R} _.

(** The environment: it answers each call, or rejects it, and may change. *)
Definition Handler (W : Type) : Type := ∀ c : Call, W → (Exn + Resp c) * W.

Definition after {W R} (ev : Event) (r : Run W R) : Run W R :=
  {| outcome := outcome r; cache_after := cache_after r;
     world_after := world_after r; trace := ev :: trace r |}.

Fixpoint run {W R} (h : Handler W) (p : Prog R)
    (w : W) (cache : gmap string NftInfo) : Run W R :=
  match p with
  | Ret r =>
      {| outcome := Resolved r; cache_after := cache;
         world_after := w; trace := [] |}
  | Throw e =>
      {| outcome := Rejected e; cache_after := cache;
         world_after := w; trace := [] |}
  | CacheRead key k =>
      after (EvRead key (cache !! key)) (run h (k (cache !! key)) w cache)
  | CacheWrite key info k =>
      after (EvWrite key info) (run h k w (<[key:=info]> cache))
  | Invoke c k =>
      match h c w with
      | (inl e, w') =>
          {| outcome := Rejected e; cache_after := cache;
             world_after := w'; trace := [EvCall c (inl e)] |}
      | (inr x, w') => after (EvCall c (inr x)) (run h (k x) w' cache)
      end
  end.

(** ** The service *)

(** [getWallet] of [common/utils]: a private key makes a new [Wallet] on the
    chain's provider, a signer is returned as it is. *)
Definition getWallet (pkOrSigner : PkOrSigner) (chainID : Z) : Prog WalletT :=
  match pkOrSigner with
  | Pk privateKey =>
      p ← call (GetChainProvider chainID);
      w ← call (NewWallet privateKey p);
      Ret (OfWallet w)
  | RpcSigner s => Ret (OfSigner s)
  end.

(** [`${contractAddress} is not an NFT contract`] *)
Definition NotAnNftContract (contractAddress : string) : Exn :=
  Error (contractAddress +:+ " is not an NFT contract").

(** [NftService.cacheGet] on the stored entries.  A stored [NftInfo] is an
    object, hence truthy: for an address that is not the name of a property
    every object inherits, the test [if (NftService.cache[contractAddress])]
    is the test for a stored entry.  The final
    [return NftService.cache[contractAddress]] reads back what the line
    before it stored.  [cacheGet_js] below is the method on every address,
    read by read. *)
Definition cacheGet (contractAddress : string) (chainID : Z) : Prog NftInfo :=
  CacheRead contractAddress (λ hit,
    match hit with
    | Some info => Ret info
    | None =>
        nftType ← call (GetNftType contractAddress chainID);
        if decide (nftType ≠ UNKNOWN) then
          let contractFactory :=
            if decide (nftType = ERC1155)
            then LiqERC1155__factory else LiqERC721__factory in
          p ← call (GetChainProvider chainID);
          let info :=
            {| contract := attach (connect contractFactory AddressZero p)
                             contractAddress;
               schema := nftType |} in
          CacheWrite contractAddress info (Ret info)
        else Throw (NotAnNftContract contractAddress)
    end).

(** [tokenIDs.join()] *)
Definition join (tokenIDs : list string) : string := String.concat "," tokenIDs.

(** [`ERC 721 transfer supports exactly 1 tokenID, received ${tokenIDs.join()}`] *)
Definition InvalidTransferShape (tokenIDs : list string) : Exn :=
  Error ("ERC 721 transfer supports exactly 1 tokenID, received "
         +:+ join tokenIDs).

(** [amounts![0]]: the element read throws on [undefined], and yields
    [undefined] past the end of an array. *)
Definition amounts_0 (amounts : option (list Z)) : Prog (option Z) :=
  match amounts with
  | Some values => Ret (values !! 0%nat)
  | None => Throw TypeError
  end.

(** [const data = "0x"] *)
Definition data : string := "0x".

(** Sending: [prepareTransaction({...tx, from: owner, chainId}, chainId)],
    then [(await wallet.sendTransaction(preparedTx)).hash]. *)
Definition prepareAndSend (tx : PopulatedTransaction) (owner : string)
    (chainId : Z) (wallet : WalletT) : Prog string :=
  preparedTx ←
    call (PrepareTransaction
            {| populated := tx; from := owner; chainId := chainId |} chainId);
  response ← call (SendTransaction wallet preparedTx);
  Ret (hash response).

Section Transfer.

(** How a member of [NftType] prints inside a template string: the enum's
    declaration is not among the sources, so its text is a parameter. *)
Context (NftType_text : NftType → string).

(** [`Unsupported NFT type: ${schema}`] *)
Definition UnsupportedSchema (schema : NftType) : Exn :=
  Error ("Unsupported NFT type: " +:+ NftType_text schema).

(** The [switch (schema)] of [transferNft]: the statement that assigns
    [tx] or throws. *)
Definition transferSwitch (schema : NftType) (contract : Contract)
    (owner : string) (request : TransferRequest)
    : Prog PopulatedTransaction :=
  match schema with
  | ERC721 =>
      if decide (length (tokenIDs request) ≠ 1%nat) then
        Throw (InvalidTransferShape (tokenIDs request))
      else
        call (PopulateTransaction contract
                (safeTransferFrom_address_address_uint256
                   owner (receiver request) (tokenIDs request !! 0%nat)))
  | ERC1155 =>
      if decide (1 < length (tokenIDs request))%nat then
        call (PopulateTransaction contract
                (safeBatchTransferFrom owner (receiver request)
                   (tokenIDs request) (amounts request) data))
      else
        amount ← amounts_0 (amounts request);
        call (PopulateTransaction contract
                (safeTransferFrom owner (receiver request)
                   (tokenIDs request !! 0%nat) amount data))
  | _ => Throw (UnsupportedSchema schema)
  end.

(** [NftService.transferNft] *)
Definition transferNft (transferRequest : TransferRequest) (chainId : Z)
    (pkOrSigner : PkOrSigner) : Prog string :=
  info ← cacheGet (contractAddress transferRequest) chainId;
  wallet ← getWallet pkOrSigner chainId;
  owner ← call (GetAddress wallet);
  tx ← transferSwitch (schema info) (contract info) owner transferRequest;
  prepareAndSend tx owner chainId wallet.

End Transfer.

(** [NftService.createERC1155Collection]: [getWallet] is evaluated twice,
    and [owner] is read before the deployment. *)
Definition createERC1155Collection (request : CreateERC1155CollectionRequest)
    (chainId : Z) (pkOrSigner : PkOrSigner) : Prog string :=
  deployer ← getWallet pkOrSigner chainId;
  wallet ← getWallet pkOrSigner chainId;
  owner ← call (GetAddress wallet);
  deployed ← call (Deploy LiqERC1155__factory deployer [create1155_uri request]);
  Ret (hash (deployTransaction deployed)).

(** [NftService.mintERC1155Token] *)
Definition mintERC1155Token (request : MintERC1155Request) (chainId : Z)
    (pkOrSigner : PkOrSigner) : Prog string :=
  p ← call (GetChainProvider chainId);
  let contract :=
    attach (connect LiqERC1155__factory AddressZero p)
      (mint1155_contractAddress request) in
  wallet ← getWallet pkOrSigner chainId;
  owner ← call (GetAddress wallet);
  tx ← call (PopulateTransaction contract
               (mint (mint1155_recipient request) (mint1155_id request)
                  (mint1155_amount request) data));
  prepareAndSend tx owner chainId wallet.

(** [NftService.createERC721Collection] *)
Definition createERC721Collection (request : CreateERC721CollectionRequest)
    (chainId : Z) (pkOrSigner : PkOrSigner) : Prog string :=
  deployer ← getWallet pkOrSigner chainId;
  deployed ← call (Deploy LiqERC721__factory deployer
                     [tokenName request; tokenSymbol request]);
  Ret (hash (deployTransaction deployed)).

(** [NftService.mintERC721Token] *)
Definition mintERC721Token (request : MintERC721Request) (chainId : Z)
    (pkOrSigner : PkOrSigner) : Prog string :=
  p ← call (GetChainProvider chainId);
  let contract :=
    attach (connect LiqERC721__factory AddressZero p)
      (mint721_contractAddress request) in
  wallet ← getWallet pkOrSigner chainId;
  owner ← call (GetAddress wallet);
  tx ← call (PopulateTransaction contract
               (safeMint (mint721_recipient request) (mint721_uri request)));
  prepareAndSend tx owner chainId wallet.

(** ** The public surface, and the caches a process can hold *)

Inductive Operation : Set :=
| TransferNft (request : TransferRequest) (chainId : Z) (pkOrSigner : PkOrSigner)
| CreateERC1155Collection
    (request : CreateERC1155CollectionRequest) (chainId : Z)
    (pkOrSigner : PkOrSigner)
| MintERC1155Token
    (request : MintERC1155Request) (chainId : Z) (pkOrSigner : PkOrSigner)
| CreateERC721Collection
    (request : CreateERC721CollectionRequest) (chainId : Z)
    (pkOrSigner : PkOrSigner)
| MintERC721Token
    (request : MintERC721Request) (chainId : Z) (pkOrSigner : PkOrSigner).

Definition perform (NftType_text : NftType → string) (op : Operation)
    : Prog string :=
  match op with
  | TransferNft request chainId pkOrSigner =>
      transferNft NftType_text request chainId pkOrSigner
  | CreateERC1155Collection request chainId pkOrSigner =>
      createERC1155Collection request chainId pkOrSigner
  | MintERC1155Token request chainId pkOrSigner =>
      mintERC1155Token request chainId pkOrSigner
  | CreateERC721Collection request chainId pkOrSigner =>
      createERC721Collection request chainId pkOrSigner
  | MintERC721Token request chainId pkOrSigner =>
      mintERC721Token request chainId pkOrSigner
  end.

(** The cache starts as [{}] and changes only through the public methods
    ([cacheGet] is private), whatever the environment answers. *)
Inductive reachable {W} (h : Handler W) (NftType_text : NftType → string)
    : gmap string NftInfo → Prop :=
| reachable_initial : reachable h NftType_text ∅
| reachable_perform cache op w :
    reachable h NftType_text cache →
    reachable h NftType_text
      (cache_after (run h (perform NftType_text op) w cache)).

(** ** Reading traces *)

(** The collaborator calls made, answered or not, in order. *)
Definition calls_of (t : list Event) : list Call :=
  omap (λ ev, match ev with EvCall c _ => Some c | _ => None end) t.

(** The schema detections that were answered, with their answers. *)
Definition detection (ev : Event) : option (string * Z * NftType) :=
  match ev with
  | EvCall c answer =>
      match c return Exn + Resp c → option (string * Z * NftType) with
      | GetNftType a chainID =>
          λ answer,
            match answer with
            | inr nftType => Some (a, chainID, nftType)
            | inl _ => None
            end
      | _ => λ _, None
      end answer
  | _ => None
  end.

Definition detections (t : list Event) : list (string * Z * NftType) :=
  omap detection t.

(** The cache accesses. *)
Definition cache_reads (t : list Event) : list string :=
  omap (λ ev, match ev with EvRead key _ => Some key | _ => None end) t.

Definition cache_writes (t : list Event) : list (string * NftInfo) :=
  omap (λ ev, match ev with EvWrite key info => Some (key, info) | _ => None end) t.

(** The contract calls built through [populateTransaction]. *)
Definition populated_calls (t : list Event) : list (Contract * Method) :=
  omap (λ c, match c with PopulateTransaction ct m => Some (ct, m) | _ => None end)
       (calls_of t).

(** The transactions handed to the transaction service, and to the wallet. *)
Definition prepared_calls (t : list Event) : list (TransactionRequest * Z) :=
  omap (λ c, match c with PrepareTransaction tx n => Some (tx, n) | _ => None end)
       (calls_of t).

Definition sent_calls (t : list Event) : list (WalletT * PreparedTransaction) :=
  omap (λ c, match c with SendTransaction w tx => Some (w, tx) | _ => None end)
       (calls_of t).

(** The call that rejected, with its cause: a rejection ends the run, so it
    is the last event. *)
Definition rejection (t : list Event) : option (Call * Exn) :=
  match last t with
  | Some (EvCall c (inl e)) => Some (c, e)
  | _ => None
  end.

(** A program that never touches the static cache. *)
Fixpoint cache_free {R} (p : Prog R) : Prop :=
  match p with
  | Ret _ | Throw _ => True
  | CacheRead _ _ | CacheWrite _ _ _ => False
  | Invoke c k => ∀ x, cache_free (k x)
  end.

(** Signer resolution as [transferNft] and the mint methods perform it:
    [getWallet(pkOrSigner, chainId)] then [await wallet.getAddress()]. *)
Definition resolveOwner (pkOrSigner : PkOrSigner) (chainId : Z)
    : Prog (WalletT * string) :=
  wallet ← getWallet pkOrSigner chainId;
  owner ← (call (GetAddress wallet) : Prog string);
  Ret (wallet, owner).

(** [s] contains [part]. *)
Definition includes (s part : string) : Prop :=
  ∃ before rest, s = before +:+ part +:+ rest.

(** The two failure sources the mint methods hand to the caller. *)
Inductive FailureSource : Set := Preparation | Broadcast | OtherSource.

(** What the caller of a failed run can inspect. *)
Definition surfaced {W R} (r : Run W R) : option Exn :=
  match outcome r with
  | Rejected e => Some e
  | Resolved _ => None
  end.

(** ** Sample environments *)

(** A registry that knows two contracts, and collaborators that all
    succeed. *)
Definition sampleRegistry (a : string) : NftType :=
  if decide (a = "0xABC") then ERC1155
  else if decide (a = "0x123") then ERC721 else UNKNOWN.

Definition cooperative (c : Call) : Resp c :=
  match c with
  | GetNftType a _ => sampleRegistry a
  | GetChainProvider chainID => ProviderHandle (Z.to_N chainID)
  | NewWallet _ _ => WalletHandle 1
  | GetAddress _ => "0xOWNER"
  | PopulateTransaction ct _ => {| tx_to := address ct; tx_data := "0xf242432a" |}
  | PrepareTransaction _ _ => Prepared 1
  | SendTransaction _ _ => {| hash := "0xHASH" |}
  | Deploy _ _ _ => {| deployTransaction := {| hash := "0xDEPLOY" |} |}
  end.

Definition allSucceed : Handler unit := λ c w, (inr (cooperative c), w).

Definition preparationRejects : Handler unit :=
  λ c w,
    match c with
    | PrepareTransaction _ _ => (inl (Error "network error"), w)
    | _ => (inr (cooperative c), w)
    end.

Definition broadcastRejects : Handler unit :=
  λ c w,
    match c with
    | SendTransaction _ _ => (inl (Error "network error"), w)
    | _ => (inr (cooperative c), w)
    end.

Definition sampleText (t : NftType) : string :=
  match t with ERC721 => "ERC721" | ERC1155 => "ERC1155" | UNKNOWN => "UNKNOWN" end.

Definition sampleSigner : PkOrSigner := RpcSigner (SignerHandle 7).

Definition sampleContract (f : Factory) (a : string) (chainID : Z) : Contract :=
  attach (connect f AddressZero (ProviderHandle (Z.to_N chainID))) a.

Definition sampleCache : gmap string NftInfo :=
  <["0xABC" := {| contract := sampleContract LiqERC1155__factory "0xABC" 1;
                  schema := ERC1155 |}]>
  (<["0x123" := {| contract := sampleContract LiqERC721__factory "0x123" 1;
                   schema := ERC721 |}]> ∅).

(** Bindings the sample registry leads to on chain 1. *)
Definition binding_ABC : NftInfo :=
  {| contract := sampleContract LiqERC1155__factory "0xABC" 1;
     schema := ERC1155 |}.

Definition binding_123 : NftInfo :=
  {| contract := sampleContract LiqERC721__factory "0x123" 1;
     schema := ERC721 |}.

(** Sample requests. *)
Definition request_7 : TransferRequest :=
  {| contractAddress := "0xABC"; receiver := "0xDEF";
     tokenIDs := ["7"]; amounts := None |}.

Definition request_7_3 : TransferRequest :=
  {| contractAddress := "0xABC"; receiver := "0xDEF";
     tokenIDs := ["7"]; amounts := Some [3] |}.

Definition request_7_8 : TransferRequest :=
  {| contractAddress := "0xABC"; receiver := "0xDEF";
     tokenIDs := ["7"; "8"]; amounts := Some [3; 1] |}.

Definition request_7_8_short : TransferRequest :=
  {| contractAddress := "0xABC"; receiver := "0xDEF";
     tokenIDs := ["7"; "8"]; amounts := Some [3] |}.

Definition request_7_8_absent : TransferRequest :=
  {| contractAddress := "0xABC"; receiver := "0xDEF";
     tokenIDs := ["7"; "8"]; amounts := None |}.

Definition request_empty : TransferRequest :=
  {| contractAddress := "0xABC"; receiver := "0xDEF";
     tokenIDs := []; amounts := Some [] |}.

Definition request_1_2 : TransferRequest :=
  {| contractAddress := "0x123"; receiver := "0xDEF";
     tokenIDs := ["1"; "2"]; amounts := None |}.

Definition mint_request_721 : MintERC721Request :=
  {| mint721_contractAddress := "0x123"; mint721_recipient := "0xDEF";
     mint721_uri := "ipfs://token" |}.

Definition mint_request_1155 : MintERC1155Request :=
  {| mint1155_contractAddress := "0xABC"; mint1155_recipient := "0xDEF";
     mint1155_id := "7"; mint1155_amount := 3 |}.

(** ** Further readings of requests, operations and traces *)

(** [{ ...request, amounts }] *)
Definition with_amounts (request : TransferRequest) (amounts : option (list Z))
    : TransferRequest :=
  {| contractAddress := contractAddress request;
     receiver := receiver request;
     tokenIDs := tokenIDs request;
     amounts := amounts |}.

(** The [chainId] and [pkOrSigner] arguments of a public operation. *)
Definition op_chainId (op : Operation) : Z :=
  match op with
  | TransferNft _ chainId _ | CreateERC1155Collection _ chainId _
  | MintERC1155Token _ chainId _ | CreateERC721Collection _ chainId _
  | MintERC721Token _ chainId _ => chainId
  end.

Definition op_pkOrSigner (op : Operation) : PkOrSigner :=
  match op with
  | TransferNft _ _ pkOrSigner | CreateERC1155Collection _ _ pkOrSigner
  | MintERC1155Token _ _ pkOrSigner | CreateERC721Collection _ _ pkOrSigner
  | MintERC721Token _ _ pkOrSigner => pkOrSigner
  end.

(** The factory [cacheGet] connects for a detected schema. *)
Definition factory_of (nftType : NftType) : Factory :=
  if decide (nftType = ERC1155) then LiqERC1155__factory else LiqERC721__factory.

(** The typechain interface a populated method belongs to; [None] for the
    mint methods, which both contracts may declare. *)
Definition method_interface (m : Method) : option Factory :=
  match m with
  | safeTransferFrom_address_address_uint256 _ _ _ => Some LiqERC721__factory
  | safeBatchTransferFrom _ _ _ _ _ | safeTransferFrom _ _ _ _ _ =>
      Some LiqERC1155__factory
  | mint _ _ _ _ | safeMint _ _ => None
  end.

(** The addresses [wallet.getAddress()] answered. *)
Definition address_read (ev : Event) : option string :=
  match ev with
  | EvCall c answer =>
      match c return Exn + Resp c → option string with
      | GetAddress _ =>
          λ answer, match answer with inr a => Some a | inl _ => None end
      | _ => λ _, None
      end answer
  | _ => None
  end.

Definition addresses_read (t : list Event) : list string := omap address_read t.

(** The deployments asked for. *)
Definition deploy_calls (t : list Event)
    : list (Factory * WalletT * list string) :=
  omap (λ c, match c with Deploy f w args => Some (f, w, args) | _ => None end)
       (calls_of t).

(** The wallet or signer a call is made on, if any. *)
Definition call_wallet (c : Call) : option WalletT :=
  match c with
  | GetAddress w | SendTransaction w _ | Deploy _ w _ => Some w
  | _ => None
  end.

(** Kinds of collaborator calls. *)
Definition is_detection (c : Call) : bool :=
  match c with GetNftType _ _ => true | _ => false end.

Definition is_new_wallet (c : Call) : bool :=
  match c with NewWallet _ _ => true | _ => false end.

Definition is_deploy (c : Call) : bool :=
  match c with Deploy _ _ _ => true | _ => false end.

Definition is_submission (c : Call) : bool :=
  match c with
  | PopulateTransaction _ _ | PrepareTransaction _ _ | SendTransaction _ _ => true
  | _ => false
  end.

(** A program none of whose calls, on any path, is of kind [bad]. *)
Fixpoint avoids {R} (bad : Call → bool) (p : Prog R) : Prop :=
  match p with
  | Ret _ | Throw _ => True
  | CacheRead _ k => ∀ found, avoids bad (k found)
  | CacheWrite _ _ k => avoids bad k
  | Invoke c k => bad c = false ∧ ∀ x, avoids bad (k x)
  end.


(** An environment whose chain provider factory rejects, and one whose
    wallets cannot tell their address. *)
Definition providerRejects : Handler unit :=
  λ c w,
    match c with
    | GetChainProvider _ => (inl (Error "unsupported chain"), w)
    | _ => (inr (cooperative c), w)
    end.


Definition request_1 : TransferRequest :=
  {| contractAddress := "0x123"; receiver := "0xDEF";
     tokenIDs := ["1"]; amounts := None |}.

Definition request_nope : TransferRequest :=
  {| contractAddress := "0xNOPE"; receiver := "0xDEF";
     tokenIDs := ["1"]; amounts := None |}.

Definition create_request_721 : CreateERC721CollectionRequest :=
  {| tokenName := "Sample"; tokenSymbol := "SMP" |}.

Definition create_request_1155 : CreateERC1155CollectionRequest :=
  {| create1155_uri := "ipfs://base/" |}.

(** The errors a program throws itself, on some path. *)
Fixpoint throws {R} (p : Prog R) (e : Exn) : Prop :=
  match p with
  | Ret _ => False
  | Throw e' => e' = e
  | CacheRead _ k => ∃ found, throws (k found) e
  | CacheWrite _ _ k => throws k e
  | Invoke c k => ∃ x, throws (k x) e
  end.

(** The wallets constructed from a private key. *)
Definition new_wallet_calls (t : list Event) : list (string * Provider) :=
  omap (λ c, match c with NewWallet key p => Some (key, p) | _ => None end)
       (calls_of t).

(** The deployments that were answered, with the hash of their transaction. *)
Definition deployment (ev : Event) : option (Factory * WalletT * list string * string) :=
  match ev with
  | EvCall c answer =>
      match c return Exn + Resp c → option (Factory * WalletT * list string * string)
      with
      | Deploy f w args =>
          λ answer,
            match answer with
            | inr deployed => Some (f, w, args, hash (deployTransaction deployed))
            | inl _ => None
            end
      | _ => λ _, None
      end answer
  | _ => None
  end.

Definition deployments (t : list Event)
    : list (Factory * WalletT * list string * string) :=
  omap deployment t.

(** A call that builds a wallet, or is made on a wallet other than the
    signer [s]. *)
Definition beside_signer (s : JsonRpcSigner) (c : Call) : bool :=
  is_new_wallet c ||
  match call_wallet c with
  | Some (OfSigner (SignerHandle id)) =>
      match s with SignerHandle id' => negb (N.eqb id id') end
  | Some (OfWallet _) => true
  | None => false
  end.

(** ** The cache as the plain object it is *)

(** [NftService.cache] is created as [{}]: a read [cache[key]] finds the entry
    stored under [key] or, failing that, the property of that name that every
    plain object inherits from [Object.prototype].  These are the inherited
    names; each of them reads as a function or an object, hence truthy, and
    none of them has a [schema] or a [contract]. *)
Definition Object_prototype_names : list string :=
  ["constructor"; "__proto__"; "hasOwnProperty"; "isPrototypeOf";
   "propertyIsEnumerable"; "toLocaleString"; "toString"; "valueOf";
   "__defineGetter__"; "__defineSetter__"; "__lookupGetter__";
   "__lookupSetter__"].

(** What [cache[key]] evaluates to when it is not [undefined]. *)
Inductive CacheHit : Set :=
| Stored (info : NftInfo)
| Inherited (name : string).

Definition cache_value (own : option NftInfo) (key : string) : option CacheHit :=
  match own with
  | Some info => Some (Stored info)
  | None =>
      if decide (key ∈ Object_prototype_names) then Some (Inherited key)
      else None
  end.

(** The expression [NftService.cache[key]]; [None] is [undefined]. *)
Definition cache_at (key : string) : Prog (option CacheHit) :=
  CacheRead key (λ own, Ret (cache_value own key)).

(** [NftService.cacheGet], read by read: the test
    [if (NftService.cache[contractAddress])], the [return] of a second
    read, and after the assignment the [return] of a read again. *)
Definition cacheGet_js (contractAddress : string) (chainID : Z)
    : Prog (option CacheHit) :=
  test ← cache_at contractAddress;
  match test with
  | Some _ => cache_at contractAddress
  | None =>
      nftType ← call (GetNftType contractAddress chainID);
      if decide (nftType ≠ UNKNOWN) then
        let contractFactory :=
          if decide (nftType = ERC1155)
          then LiqERC1155__factory else LiqERC721__factory in
        p ← call (GetChainProvider chainID);
        let info :=
          {| contract := attach (connect contractFactory AddressZero p)
                           contractAddress;
             schema := nftType |} in
        CacheWrite contractAddress info (cache_at contractAddress)
      else Throw (NotAnNftContract contractAddress)
  end.

(** [`Unsupported NFT type: ${schema}`] with [schema] undefined. *)
Definition UnsupportedUndefined : Exn := Error "Unsupported NFT type: undefined".

(** The lines of [transferNft] after [cacheGet] has returned a value: an
    inherited value has no [schema], so the [switch] on it takes the
    [default] branch. *)
Definition transferNft_with (NftType_text : NftType → string)
    (transferRequest : TransferRequest) (chainId : Z) (pkOrSigner : PkOrSigner)
    (value : CacheHit) : Prog string :=
  wallet ← getWallet pkOrSigner chainId;
  owner ← (call (GetAddress wallet) : Prog string);
  tx ← match value with
       | Stored info =>
           transferSwitch NftType_text (schema info) (contract info)
             owner transferRequest
       | Inherited _ => Throw UnsupportedUndefined
       end;
  prepareAndSend tx owner chainId wallet.

(** [NftService.transferNft] on that cache; destructuring [undefined]
    throws. *)
Definition transferNft_js (NftType_text : NftType → string)
    (transferRequest : TransferRequest) (chainId : Z) (pkOrSigner : PkOrSigner)
    : Prog string :=
  hit ← cacheGet_js (contractAddress transferRequest) chainId;
  match hit with
  | None => Throw TypeError
  | Some value =>
      transferNft_with NftType_text transferRequest chainId pkOrSigner value
  end.

Definition perform_js (NftType_text : NftType → string) (op : Operation)
    : Prog string :=
  match op with
  | TransferNft request chainId pkOrSigner =>
      transferNft_js NftType_text request chainId pkOrSigner
  | _ => perform NftType_text op
  end.

(** A trace without its cache reads. *)
Definition without_reads (t : list Event) : list Event :=
  omap (λ ev, match ev with EvRead _ _ => None | _ => Some ev end) t.

(** ** Operations that overlap *)

(** The operations are async: between two of its steps an operation may
    have to wait, and other operations run meanwhile on the same cache.  A
    pool holds the operations called; a schedule names, step by step, the
    one that moves, and an operation that has not moved yet has not
    started.  Every interleaving the runtime can produce is a schedule (the
    runtime switches only where an operation awaits). *)
Inductive Task : Type :=
| Running (p : Prog string)
| Finished (o : Outcome string).

Record Pool (W : Type) : Type := {
  tasks : list Task;
  pool_world : W;
  pool_cache : gmap string NftInfo;
  pool_trace : list Event;
}.

Arguments tasks {W} _.
Arguments pool_world {W} _.
Arguments pool_cache {W} _.
Arguments pool_trace {W} _.

Definition start {W} (ps : list (Prog string)) (w : W)
    (cache : gmap string NftInfo) : Pool W :=
  {| tasks := Running <$> ps; pool_world := w; pool_cache := cache;
     pool_trace := [] |}.

(** One step of the task at index [i], if it is still running. *)
Definition turn {W} (h : Handler W) (i : nat) (s : Pool W) : Pool W :=
  match tasks s !! i with
  | Some (Running p) =>
      match p with
      | Ret r =>
          {| tasks := <[i:=Finished (Resolved r)]> (tasks s);
             pool_world := pool_world s; pool_cache := pool_cache s;
             pool_trace := pool_trace s |}
      | Throw e =>
          {| tasks := <[i:=Finished (Rejected e)]> (tasks s);
             pool_world := pool_world s; pool_cache := pool_cache s;
             pool_trace := pool_trace s |}
      | CacheRead key k =>
          {| tasks := <[i:=Running (k (pool_cache s !! key))]> (tasks s);
             pool_world := pool_world s; pool_cache := pool_cache s;
             pool_trace := pool_trace s ++ [EvRead key (pool_cache s !! key)] |}
      | CacheWrite key info k =>
          {| tasks := <[i:=Running k]> (tasks s);
             pool_world := pool_world s;
             pool_cache := <[key:=info]> (pool_cache s);
             pool_trace := pool_trace s ++ [EvWrite key info] |}
      | Invoke c k =>
          match h c (pool_world s) with
          | (inl e, w') =>
              {| tasks := <[i:=Finished (Rejected e)]> (tasks s);
                 pool_world := w'; pool_cache := pool_cache s;
                 pool_trace := pool_trace s ++ [EvCall c (inl e)] |}
          | (inr x, w') =>
              {| tasks := <[i:=Running (k x)]> (tasks s);
                 pool_world := w'; pool_cache := pool_cache s;
                 pool_trace := pool_trace s ++ [EvCall c (inr x)] |}
          end
      end
  | _ => s
  end.

Fixpoint interleave {W} (h : Handler W) (schedule : list nat) (s : Pool W)
    : Pool W :=
  match schedule with
  | [] => s
  | i :: schedule' => interleave h schedule' (turn h i s)
  end.

(** An entry a resolution may store under [key]. *)
Definition binding_of (key : string) (info : NftInfo) : Prop :=
  schema info ≠ UNKNOWN ∧
  (key ∉ Object_prototype_names) ∧
  address (contract info) = key ∧
  interface (contract info) = factory_of (schema info).

(** A program all of whose cache writes, on every path, store an entry
    that [P] accepts. *)
Fixpoint writes {R} (P : string → NftInfo → Prop) (p : Prog R) : Prop :=
  match p with
  | Ret _ | Throw _ => True
  | CacheRead _ k => ∀ found, writes P (k found)
  | CacheWrite key info k => P key info ∧ writes P k
  | Invoke c k => ∀ x, writes P (k x)
  end.

Definition task_writes (P : string → NftInfo → Prop) (t : Task) : Prop :=
  match t with
  | Running p => writes P p
  | Finished _ => True
  end.

(** The contract address an operation resolves through the cache. *)
Definition resolved_address (op : Operation) : option string :=
  match op with
  | TransferNft request _ _ => Some (contractAddress request)
  | _ => None
  end.

Definition resolved_addresses (ops : list Operation) : list string :=
  omap resolved_address ops.

(** What a pool started on [cache] may have made of it: the tasks still
    running store only entries that [P] accepts, no key has been lost, and
    an entry is the initial one or one that [P] accepts. *)
Definition grown_from {W} (P : string → NftInfo → Prop)
    (cache : gmap string NftInfo) (s : Pool W) : Prop :=
  Forall (task_writes P) (tasks s) ∧
  (∀ a, is_Some (cache !! a) → is_Some (pool_cache s !! a)) ∧
  (∀ a info, pool_cache s !! a = Some info →
     cache !! a = Some info ∨ P a info).

(** The binding a resolution of [a] makes from what the registry and the
    provider lookup answered. *)
Definition resolved_binding (a : string) (nftType : NftType) (p : Provider) : NftInfo :=
  {| contract := attach (connect (factory_of nftType) AddressZero p) a;
     schema := nftType |}.

(** Two transfers on one contract, each resolving while the other waits:
    the first runs up to its awaited detection, the second likewise, then
    the first stores its binding and returns it, then the second. *)
Definition overlapping : list nat := [0; 0; 1; 1; 0; 0; 0; 1; 1; 1]%nat.


(** A transfer against the inherited name ["constructor"]. *)
Definition request_constructor : TransferRequest :=
  {| contractAddress := "constructor"; receiver := "0xDEF";
     tokenIDs := ["1"]; amounts := None |}.

Definition request_7_8_on (a : string) : TransferRequest :=
  {| contractAddress := a; receiver := "0xDEF";
     tokenIDs := ["7"; "8"]; amounts := Some [3; 1] |}.

(** * Properties *)

(** ** Symbolic execution *)

(** Case on the environment's answer to the call at the head of a run. *)
Ltac ask :=
  match goal with
  | |- context [match ?h ?c ?w with _ => _ end] =>
      lazymatch type of h with
      | Handler _ => destruct (h c w) as [[?|?] ?] eqn:?
      end
  end.

Ltac exec := repeat (cbn in *; try done; ask); cbn in *; try done.

Ltac crunch :=
  repeat (cbn in *; try done;
          first [ ask | case_decide
                | match goal with
                  | |- context [match ?x with _ => _ end] => destruct x eqn:?
                  end ]);
  cbn in *; try done.

(** ** The interpreter *)

(** Running [p ≫= f] is running [p], then [f] on its result from where [p]
    stopped; a rejection of [p] is final. *)
Lemma run_bind {W A B} (h : Handler W) (p : Prog A) (f : A → Prog B) w cache :
  run h (p ≫= f) w cache =
    match outcome (run h p w cache) with
    | Resolved a =>
        let r := run h (f a) (world_after (run h p w cache))
                   (cache_after (run h p w cache)) in
        {| outcome := outcome r; cache_after := cache_after r;
           world_after := world_after r;
           trace := trace (run h p w cache) ++ trace r |}
    | Rejected e =>
        {| outcome := Rejected e;
           cache_after := cache_after (run h p w cache);
           world_after := world_after (run h p w cache);
           trace := trace (run h p w cache) |}
    end.
Proof.
  change (p ≫= f) with (bind p f).
  revert w cache; induction p as [a|e|key k IH|key info k IH|c k IH];
    intros w cache; cbn [bind run].
  - cbn. by destruct (run h (f a) w cache).
  - done.
  - rewrite IH. cbn. by destruct (outcome _).
  - rewrite IH. cbn. by destruct (outcome _).
  - destruct (h c w) as [[e|x] w']; [done|].
    rewrite IH. cbn. by destruct (outcome _).
Qed.

Lemma populated_calls_app (t1 t2 : list Event) :
  populated_calls (t1 ++ t2)%list = populated_calls t1 ++ populated_calls t2.
Proof. unfold populated_calls, calls_of. by rewrite !omap_app. Qed.

Lemma prepared_calls_app (t1 t2 : list Event) :
  prepared_calls (t1 ++ t2)%list = prepared_calls t1 ++ prepared_calls t2.
Proof. unfold prepared_calls, calls_of. by rewrite !omap_app. Qed.

Lemma sent_calls_app (t1 t2 : list Event) :
  sent_calls (t1 ++ t2)%list = sent_calls t1 ++ sent_calls t2.
Proof. unfold sent_calls, calls_of. by rewrite !omap_app. Qed.

Lemma cache_writes_app (t1 t2 : list Event) :
  cache_writes (t1 ++ t2) = cache_writes t1 ++ cache_writes t2.
Proof. unfold cache_writes. by rewrite omap_app. Qed.

Lemma detections_app (t1 t2 : list Event) :
  detections (t1 ++ t2) = detections t1 ++ detections t2.
Proof. unfold detections. by rewrite omap_app. Qed.

(** ** Programs that leave the cache alone *)

Lemma cache_free_bind {A B} (p : Prog A) (f : A → Prog B) :
  cache_free p → (∀ a, cache_free (f a)) → cache_free (p ≫= f).
Proof.
  change (p ≫= f) with (bind p f).
  induction p as [a|e|key k IH|key info k IH|c k IH]; cbn; intros Hp Hf; auto.
Qed.

Lemma cache_free_call c : cache_free (call c).
Proof. by intros x. Qed.

Lemma cache_free_getWallet pk chain : cache_free (getWallet pk chain).
Proof. by destruct pk. Qed.

Lemma cache_free_resolveOwner pk chain : cache_free (resolveOwner pk chain).
Proof. by destruct pk. Qed.

Lemma cache_free_prepareAndSend tx owner chain wallet :
  cache_free (prepareAndSend tx owner chain wallet).
Proof. done. Qed.

Lemma cache_free_transferSwitch text schema c owner req :
  cache_free (transferSwitch text schema c owner req).
Proof.
  destruct schema; cbn; repeat case_decide; try done.
  by destruct (amounts req).
Qed.

Lemma cache_free_mintERC1155Token req chain pk :
  cache_free (mintERC1155Token req chain pk).
Proof.
  intros p. cbn -[getWallet]. apply cache_free_bind; [apply cache_free_getWallet|done].
Qed.

Lemma cache_free_mintERC721Token req chain pk :
  cache_free (mintERC721Token req chain pk).
Proof.
  intros p. cbn -[getWallet]. apply cache_free_bind; [apply cache_free_getWallet|done].
Qed.

Lemma cache_free_createERC1155Collection req chain pk :
  cache_free (createERC1155Collection req chain pk).
Proof.
  apply cache_free_bind; [apply cache_free_getWallet|intros deployer].
  apply cache_free_bind; [apply cache_free_getWallet|done].
Qed.

Lemma cache_free_createERC721Collection req chain pk :
  cache_free (createERC721Collection req chain pk).
Proof. apply cache_free_bind; [apply cache_free_getWallet|done]. Qed.

Lemma cache_free_run {W R} (h : Handler W) (p : Prog R) :
  cache_free p →
  ∀ w (cache : gmap string NftInfo),
    let r := run h p w cache in
    cache_after r = cache ∧ cache_reads (trace r) = [] ∧
    cache_writes (trace r) = [].
Proof.
  induction p as [a|e|key k IH|key info k IH|c k IH]; cbn; intros Hp w cache;
    try done.
  destruct (h c w) as [[e|x] w']; [done|]. cbn. by apply IH.
Qed.

Lemma cache_free_independent {W R} (h : Handler W) (p : Prog R) :
  cache_free p →
  ∀ w (cache cache' : gmap string NftInfo),
    outcome (run h p w cache') = outcome (run h p w cache) ∧
    world_after (run h p w cache') = world_after (run h p w cache) ∧
    trace (run h p w cache') = trace (run h p w cache).
Proof.
  induction p as [a|e|key k IH|key info k IH|c k IH]; cbn;
    intros Hp w cache cache'; try done.
  destruct (h c w) as [[e|x] w']; [done|]. cbn.
  destruct (IH x (Hp x) w' cache cache') as (-> & -> & ->). done.
Qed.

(** ** The [switch] of [transferNft], branch by branch *)

Section Switch.
Context (text : NftType → string) (c : Contract) (owner : string)
  (req : TransferRequest).

Lemma transferSwitch_ERC721_one :
  length (tokenIDs req) = 1%nat →
  transferSwitch text ERC721 c owner req =
    call (PopulateTransaction c
            (safeTransferFrom_address_address_uint256 owner (receiver req)
               (tokenIDs req !! 0%nat))).
Proof. intros H. unfold transferSwitch. by case_decide. Qed.

Lemma transferSwitch_ERC721_other :
  length (tokenIDs req) ≠ 1%nat →
  transferSwitch text ERC721 c owner req =
    Throw (InvalidTransferShape (tokenIDs req)).
Proof. intros H. unfold transferSwitch. by case_decide. Qed.

Lemma transferSwitch_ERC1155_batch :
  (1 < length (tokenIDs req))%nat →
  transferSwitch text ERC1155 c owner req =
    call (PopulateTransaction c
            (safeBatchTransferFrom owner (receiver req) (tokenIDs req)
               (amounts req) "0x")).
Proof. intros H. unfold transferSwitch. by case_decide. Qed.

Lemma transferSwitch_ERC1155_single values :
  ¬ (1 < length (tokenIDs req))%nat →
  amounts req = Some values →
  transferSwitch text ERC1155 c owner req =
    call (PopulateTransaction c
            (safeTransferFrom owner (receiver req) (tokenIDs req !! 0%nat)
               (values !! 0%nat) "0x")).
Proof. intros H Ha. unfold transferSwitch. case_decide; [done|]. by rewrite Ha. Qed.

Lemma transferSwitch_ERC1155_undefined :
  ¬ (1 < length (tokenIDs req))%nat →
  amounts req = None →
  transferSwitch text ERC1155 c owner req = Throw TypeError.
Proof. intros H Ha. unfold transferSwitch. case_decide; [done|]. by rewrite Ha. Qed.

Lemma transferSwitch_UNKNOWN :
  transferSwitch text UNKNOWN c owner req = Throw (UnsupportedSchema text UNKNOWN).
Proof. done. Qed.

End Switch.

(** Every way through the [switch]. *)
Lemma transferSwitch_cases text schema c owner req :
  let p := transferSwitch text schema c owner req in
  (schema = ERC721 ∧ length (tokenIDs req) = 1%nat ∧
   p = call (PopulateTransaction c
               (safeTransferFrom_address_address_uint256 owner (receiver req)
                  (tokenIDs req !! 0%nat)))) ∨
  (schema = ERC721 ∧ length (tokenIDs req) ≠ 1%nat ∧
   p = Throw (InvalidTransferShape (tokenIDs req))) ∨
  (schema = ERC1155 ∧ (1 < length (tokenIDs req))%nat ∧
   p = call (PopulateTransaction c
               (safeBatchTransferFrom owner (receiver req) (tokenIDs req)
                  (amounts req) "0x"))) ∨
  (schema = ERC1155 ∧ ¬ (1 < length (tokenIDs req))%nat ∧
   ∃ values, amounts req = Some values ∧
     p = call (PopulateTransaction c
                 (safeTransferFrom owner (receiver req) (tokenIDs req !! 0%nat)
                    (values !! 0%nat) "0x"))) ∨
  (schema = ERC1155 ∧ ¬ (1 < length (tokenIDs req))%nat ∧
   amounts req = None ∧ p = Throw TypeError) ∨
  (schema ≠ ERC721 ∧ schema ≠ ERC1155 ∧
   p = Throw (UnsupportedSchema text schema)).
Proof.
  intros p. subst p. destruct schema.
  - destruct (decide (length (tokenIDs req) = 1%nat)) as [Hlen|Hlen].
    + rewrite transferSwitch_ERC721_one by done. by left.
    + rewrite transferSwitch_ERC721_other by done. right; left. done.
  - destruct (decide (1 < length (tokenIDs req))%nat) as [Hlen|Hlen].
    + rewrite transferSwitch_ERC1155_batch by done. do 2 right; left. done.
    + destruct (amounts req) as [values|] eqn:Ha.
      * rewrite (transferSwitch_ERC1155_single _ _ _ _ values) by done.
        do 3 right; left. eauto.
      * rewrite transferSwitch_ERC1155_undefined by done.
        do 4 right; left. done.
  - do 5 right. done.
Qed.

(** ** [cacheGet] and signer resolution *)

Lemma cacheGet_hit {W} (h : Handler W) w (cache : gmap string NftInfo) a chain info :
  cache !! a = Some info →
  run h (cacheGet a chain) w cache =
    {| outcome := Resolved info; cache_after := cache; world_after := w;
       trace := [EvRead a (Some info)] |}.
Proof. intros Hhit. cbn. by rewrite Hhit. Qed.

Lemma cacheGet_resolved_stored {W} (h : Handler W) w
    (cache : gmap string NftInfo) a chain info :
  outcome (run h (cacheGet a chain) w cache) = Resolved info →
  cache_after (run h (cacheGet a chain) w cache) !! a = Some info.
Proof.
  cbn. destruct (cache !! a) as [i|] eqn:Hc; cbn.
  - by intros [= <-].
  - ask; cbn; [done|]. case_decide; cbn; [|done].
    ask; cbn; [done|]. intros [= <-]. by rewrite lookup_insert_eq.
Qed.

(** [cacheGet] either leaves the cache as it is, or stores one entry, for
    the address asked and with the schema just detected. *)
Lemma cacheGet_writes {W} (h : Handler W) w (cache : gmap string NftInfo) a chain :
  let r := run h (cacheGet a chain) w cache in
  (cache_writes (trace r) = [] ∧ cache_after r = cache) ∨
  (∃ nftType info,
     nftType ≠ UNKNOWN ∧ schema info = nftType ∧ cache !! a = None ∧
     outcome r = Resolved info ∧
     detections (trace r) = [(a, chain, nftType)] ∧
     cache_writes (trace r) = [(a, info)] ∧
     cache_after r = <[a:=info]> cache).
Proof.
  cbn. destruct (cache !! a) as [i|] eqn:Hhit; cbn; [by left|].
  ask; cbn; [by left|]. case_decide as Hn; cbn; [|by left].
  ask; cbn; [by left|]. right.
  refine (ex_intro _ _ (ex_intro _ _
            (conj Hn (conj _ (conj eq_refl (conj eq_refl
               (conj eq_refl (conj eq_refl eq_refl)))))))).
  reflexivity.
Qed.

(** Neither step builds, prepares or sends a transaction. *)
Lemma cacheGet_quiet {W} (h : Handler W) w (cache : gmap string NftInfo) a chain :
  let r := run h (cacheGet a chain) w cache in
  populated_calls (trace r) = [] ∧ prepared_calls (trace r) = [] ∧
  sent_calls (trace r) = [].
Proof. cbn. destruct (cache !! a); crunch. Qed.

Lemma resolveOwner_quiet {W} (h : Handler W) w (cache : gmap string NftInfo) pk chain :
  let r := run h (resolveOwner pk chain) w cache in
  cache_after r = cache ∧ populated_calls (trace r) = [] ∧
  prepared_calls (trace r) = [] ∧ sent_calls (trace r) = [].
Proof. destruct pk; crunch. Qed.

(** ** [transferNft], step by step *)

(** The lines of [transferNft] up to the [switch], regrouped. *)
Lemma run_transferNft {W} (h : Handler W) text req chain pk w cache :
  run h (transferNft text req chain pk) w cache =
  run h (info ← cacheGet (contractAddress req) chain;
         signer ← resolveOwner pk chain;
         tx ← transferSwitch text (schema info) (contract info) signer.2 req;
         prepareAndSend tx signer.2 chain signer.1) w cache.
Proof.
  unfold transferNft, resolveOwner, cacheGet, getWallet.
  cbn. destruct (cache !! contractAddress req) as [info|]; destruct pk; exec.
  all: case_decide; exec.
Qed.

(** A transfer whose binding and signer resolve continues with the
    [switch]; its trace is the three traces in order. *)
Lemma run_transferNft_resolved {W} (h : Handler W) text req chain pk w cache
    info wallet owner :
  let r0 := run h (cacheGet (contractAddress req) chain) w cache in
  let r1 := run h (resolveOwner pk chain) (world_after r0) (cache_after r0) in
  outcome r0 = Resolved info →
  outcome r1 = Resolved (wallet, owner) →
  let r2 := run h (tx ← transferSwitch text (schema info) (contract info) owner req;
                   prepareAndSend tx owner chain wallet)
              (world_after r1) (cache_after r1) in
  run h (transferNft text req chain pk) w cache =
    {| outcome := outcome r2; cache_after := cache_after r2;
       world_after := world_after r2;
       trace := trace r0 ++ trace r1 ++ trace r2 |}.
Proof.
  intros r0 r1 H0 H1 r2. rewrite run_transferNft, run_bind.
  fold r0. rewrite H0. cbn zeta. rewrite run_bind. fold r1. rewrite H1.
  done.
Qed.

Lemma run_transferNft_unresolved {W} (h : Handler W) text req chain pk w cache e :
  let r0 := run h (cacheGet (contractAddress req) chain) w cache in
  outcome r0 = Rejected e →
  run h (transferNft text req chain pk) w cache =
    {| outcome := Rejected e; cache_after := cache_after r0;
       world_after := world_after r0; trace := trace r0 |}.
Proof. intros r0 H0. rewrite run_transferNft, run_bind. fold r0. by rewrite H0. Qed.

Lemma run_transferNft_no_signer {W} (h : Handler W) text req chain pk w cache
    info e :
  let r0 := run h (cacheGet (contractAddress req) chain) w cache in
  let r1 := run h (resolveOwner pk chain) (world_after r0) (cache_after r0) in
  outcome r0 = Resolved info →
  outcome r1 = Rejected e →
  run h (transferNft text req chain pk) w cache =
    {| outcome := Rejected e; cache_after := cache_after r1;
       world_after := world_after r1; trace := trace r0 ++ trace r1 |}.
Proof.
  intros r0 r1 H0 H1. rewrite run_transferNft, run_bind.
  fold r0. rewrite H0. cbn zeta. rewrite run_bind. fold r1. by rewrite H1.
Qed.

(** After [cacheGet], a transfer leaves the cache alone. *)
Lemma cache_free_transferNft_rest text req chain pk info :
  cache_free
    (wallet ← getWallet pk chain;
     owner ← (call (GetAddress wallet) : Prog string);
     tx ← transferSwitch text (schema info) (contract info) owner req;
     prepareAndSend tx owner chain wallet).
Proof.
  apply cache_free_bind; [apply cache_free_getWallet|intros wallet].
  intros owner. cbn -[transferSwitch].
  apply cache_free_bind; [apply cache_free_transferSwitch|done].
Qed.

Lemma transferNft_cache {W} (h : Handler W) text req chain pk w
    (cache : gmap string NftInfo) :
  let r0 := run h (cacheGet (contractAddress req) chain) w cache in
  let r := run h (transferNft text req chain pk) w cache in
  cache_after r = cache_after r0 ∧
  cache_writes (trace r) = cache_writes (trace r0) ∧
  ∃ rest, trace r = trace r0 ++ rest.
Proof.
  intros r0 r. subst r. unfold transferNft. rewrite run_bind. fold r0.
  destruct (outcome r0) as [info|e]; cbn.
  - edestruct (cache_free_run h _
                 (cache_free_transferNft_rest text req chain pk info)
                 (world_after r0) (cache_after r0)) as (Hc & _ & Hw).
    rewrite cache_writes_app. split_and!; [exact Hc| |by eexists].
    etrans; [|apply app_nil_r]. f_equal. exact Hw.
  - split_and!; [done..|]. exists []. by rewrite app_nil_r.
Qed.

(** Whatever reaches the transaction service came out of
    [populateTransaction]. *)
Lemma run_transferNft_rest {W} (h : Handler W) text req chain w
    (cache : gmap string NftInfo) info wallet owner :
  let r := run h (tx ← transferSwitch text (schema info) (contract info) owner req;
                  prepareAndSend tx owner chain wallet) w cache in
  ∀ request n, (request, n) ∈ prepared_calls (trace r) →
    ∃ m, EvCall (PopulateTransaction (contract info) m) (inr (populated request))
           ∈ trace r.
Proof.
  intros r. subst r.
  destruct (transferSwitch_cases text (schema info) (contract info) owner req)
    as [(_ & _ & ->)|[(_ & _ & ->)|[(_ & _ & ->)|[(_ & _ & v & _ & ->)
       |[(_ & _ & _ & ->)|(_ & _ & ->)]]]]]; unfold prepareAndSend; exec.
  all: intros request n Hin; try (by apply elem_of_nil in Hin).
  all: apply elem_of_cons in Hin as [[= -> ->]|Hin]; [|by apply elem_of_nil in Hin].
  all: eexists; cbn; apply list_elem_of_here.
Qed.

Lemma transferNft_prepares_what_it_built {W} (h : Handler W) text req chain pk w
    (cache : gmap string NftInfo) :
  let r := run h (transferNft text req chain pk) w cache in
  ∀ request n, (request, n) ∈ prepared_calls (trace r) →
    ∃ c m, EvCall (PopulateTransaction c m) (inr (populated request)) ∈ trace r.
Proof.
  intros r request n. subst r.
  destruct (cacheGet_quiet h w cache (contractAddress req) chain) as (_ & Hq & _).
  destruct (outcome (run h (cacheGet (contractAddress req) chain) w cache))
    as [info|e] eqn:H0.
  2:{ rewrite (run_transferNft_unresolved h text req chain pk w cache e H0).
      cbn [trace]. rewrite Hq. by intros ?%elem_of_nil. }
  destruct (resolveOwner_quiet h
              (world_after (run h (cacheGet (contractAddress req) chain) w cache))
              (cache_after (run h (cacheGet (contractAddress req) chain) w cache))
              pk chain) as (_ & _ & Hr & _).
  destruct (outcome (run h (resolveOwner pk chain)
              (world_after (run h (cacheGet (contractAddress req) chain) w cache))
              (cache_after (run h (cacheGet (contractAddress req) chain) w cache))))
    as [[wallet owner]|e] eqn:H1.
  2:{ rewrite (run_transferNft_no_signer h text req chain pk w cache info e H0 H1).
      cbn [trace]. rewrite prepared_calls_app, Hq, Hr. by intros ?%elem_of_nil. }
  rewrite (run_transferNft_resolved h text req chain pk w cache info wallet owner H0 H1).
  cbn [trace]. rewrite !prepared_calls_app, Hq, Hr. cbn [app].
  intros Hin. apply run_transferNft_rest in Hin as [m Hm].
  exists (contract info), m. rewrite !elem_of_app. auto.
Qed.

(** ** What the cache can hold *)

Lemma perform_cache_after {W} (h : Handler W) text op w (cache : gmap string NftInfo) :
  let r := run h (perform text op) w cache in
  cache_after r = cache ∨
  ∃ a info, schema info ≠ UNKNOWN ∧ cache_after r = <[a:=info]> cache.
Proof.
  destruct op as [req chainID pk|req chainID pk|req chainID pk
                 |req chainID pk|req chainID pk]; cbn [perform].
  2: left; apply (cache_free_run h), cache_free_createERC1155Collection.
  2: left; apply (cache_free_run h), cache_free_mintERC1155Token.
  2: left; apply (cache_free_run h), cache_free_createERC721Collection.
  2: left; apply (cache_free_run h), cache_free_mintERC721Token.
  destruct (transferNft_cache h text req chainID pk w cache) as (-> & _).
  destruct (cacheGet_writes h w cache (contractAddress req) chainID)
    as [[_ ->]|(t & i & Ht & Hs & _ & _ & _ & _ & ->)]; [by left|].
  right. exists (contractAddress req), i. by rewrite Hs.
Qed.

Lemma NftType_supported (t : NftType) : t ≠ UNKNOWN → t = ERC721 ∨ t = ERC1155.
Proof. intros Ht. destruct t; auto. done. Qed.

Lemma reachable_supported {W} (h : Handler W) text (cache : gmap string NftInfo) :
  reachable h text cache →
  ∀ a info, cache !! a = Some info → schema info ≠ UNKNOWN.
Proof.
  induction 1 as [|cache op w Hreach IH]; intros a info.
  - by rewrite lookup_empty.
  - destruct (perform_cache_after h text op w cache)
      as [->|(a' & i & Hi & ->)]; [apply IH|].
    destruct (decide (a' = a)) as [->|Hne].
    + rewrite lookup_insert_eq. by intros [= <-].
    + rewrite lookup_insert_ne by done. apply IH.
Qed.

Lemma includes_suffix (before part : string) : includes (before +:+ part) part.
Proof.
  exists before, "". f_equal.
  induction part as [|ch part IH]; [done|].
  change (String ch part = String ch (part +:+ "")). by f_equal.
Qed.

(** * The claims *)

(** ** Transfers against a MultiOwner contract *)

(** C1, counterexample.  A request against the MultiOwner contract ["0xABC"]
    with the single token id ["7"] and no [amounts] builds no call at all:
    reading [amounts![0]] throws a [TypeError] before
    [populateTransaction.safeTransferFrom] is reached. *)
Lemma multi_owner_single_transfer_needs_amounts :
  let r := run allSucceed (transferNft sampleText request_7 1 sampleSigner)
             tt sampleCache in
  sampleCache !! "0xABC" = Some binding_ABC ∧
  amounts request_7 = None ∧
  outcome r = Rejected TypeError ∧
  populated_calls (trace r) = [] ∧
  transferSwitch sampleText ERC1155 (contract binding_ABC) "0xOWNER" request_7
  = Throw TypeError.
Proof. vm_compute. done. Qed.

(** C1, as amended.  Take a transfer whose binding resolves through the cache
    to a MultiOwner (ERC1155) contract and whose signer resolves to the
    address [owner].  With more than one token id the one call built is
    [safeBatchTransferFrom(owner, receiver, tokenIDs, amounts, "0x")], with
    [amounts] passed on as given.  Otherwise, when [amounts] is present, the
    one call built is
    [safeTransferFrom(owner, receiver, tokenIDs[0], amounts[0], "0x")]; when
    [amounts] is absent no call is built and the transfer rejects with a
    [TypeError].  Both calls carry the same [owner] and [receiver]. *)
Theorem transferNft_multi_owner_dispatch {W} (h : Handler W) text req chain pk
    w cache info wallet owner :
  let r0 := run h (cacheGet (contractAddress req) chain) w cache in
  let r1 := run h (resolveOwner pk chain) (world_after r0) (cache_after r0) in
  let r := run h (transferNft text req chain pk) w cache in
  outcome r0 = Resolved info →
  schema info = ERC1155 →
  outcome r1 = Resolved (wallet, owner) →
  ((1 < length (tokenIDs req))%nat →
     populated_calls (trace r) =
       [(contract info,
         safeBatchTransferFrom owner (receiver req) (tokenIDs req)
           (amounts req) "0x")]) ∧
  (¬ (1 < length (tokenIDs req))%nat →
   ∀ values, amounts req = Some values →
     populated_calls (trace r) =
       [(contract info,
         safeTransferFrom owner (receiver req) (tokenIDs req !! 0%nat)
           (values !! 0%nat) "0x")]) ∧
  (¬ (1 < length (tokenIDs req))%nat → amounts req = None →
     outcome r = Rejected TypeError ∧ populated_calls (trace r) = []).
Proof.
  intros r0 r1 r H0 Hs H1. subst r r0 r1.
  rewrite (run_transferNft_resolved h text req chain pk w cache info wallet
             owner H0 H1).
  cbn [trace outcome]. rewrite !populated_calls_app.
  destruct (cacheGet_quiet h w cache (contractAddress req) chain) as (-> & _).
  destruct (resolveOwner_quiet h
              (world_after (run h (cacheGet (contractAddress req) chain) w cache))
              (cache_after (run h (cacheGet (contractAddress req) chain) w cache))
              pk chain) as (_ & -> & _).
  rewrite Hs. split_and!.
  - intros Hlen. rewrite transferSwitch_ERC1155_batch by done. crunch.
  - intros Hlen values Ha.
    rewrite (transferSwitch_ERC1155_single _ _ _ _ values) by done. crunch.
  - intros Hlen Ha. by rewrite transferSwitch_ERC1155_undefined.
Qed.

(** C1, witness: the spec's two sample transfers, [tokenIDs = [7, 8]] with
    [amounts = [3, 1]] and [tokenIDs = [7]] with [amounts = [3]]. *)
Lemma transferNft_multi_owner_dispatch_witness :
  populated_calls
    (trace (run allSucceed (transferNft sampleText request_7_8 1 sampleSigner)
              tt ∅)) =
    [(contract binding_ABC,
      safeBatchTransferFrom "0xOWNER" "0xDEF" ["7"; "8"] (Some [3; 1]) "0x")] ∧
  populated_calls
    (trace (run allSucceed (transferNft sampleText request_7_3 1 sampleSigner)
              tt ∅)) =
    [(contract binding_ABC,
      safeTransferFrom "0xOWNER" "0xDEF" (Some "7") (Some 3) "0x")].
Proof.
  split.
  - refine (proj1 (transferNft_multi_owner_dispatch allSucceed sampleText
                     request_7_8 1 sampleSigner tt ∅ binding_ABC
                     (OfSigner (SignerHandle 7)) "0xOWNER" _ _ _) _);
      [reflexivity..|cbn; lia].
  - refine (proj1 (proj2 (transferNft_multi_owner_dispatch allSucceed sampleText
                     request_7_3 1 sampleSigner tt ∅ binding_ABC
                     (OfSigner (SignerHandle 7)) "0xOWNER" _ _ _)) _ [3] _);
      [reflexivity..|cbn; lia|reflexivity].
Defined.

(** ** Transfers against a SingleOwner contract *)

(** C2.  Take a transfer whose binding resolves through the cache to a
    SingleOwner (ERC721) contract and whose [tokenIDs] has a length other
    than 1.  The transfer rejects, and nothing was built, handed to the
    transaction service or sent.  Once the signer has resolved, the rejection
    is [Error("ERC 721 transfer supports exactly 1 tokenID, received " +
    tokenIDs.join())], whose message contains the joined id list. *)
Theorem transferNft_single_owner_arity {W} (h : Handler W) text req chain pk
    w cache info :
  let r0 := run h (cacheGet (contractAddress req) chain) w cache in
  let r1 := run h (resolveOwner pk chain) (world_after r0) (cache_after r0) in
  let r := run h (transferNft text req chain pk) w cache in
  outcome r0 = Resolved info →
  schema info = ERC721 →
  length (tokenIDs req) ≠ 1%nat →
  (∃ e, outcome r = Rejected e) ∧
  prepared_calls (trace r) = [] ∧
  populated_calls (trace r) = [] ∧
  sent_calls (trace r) = [] ∧
  (∀ wallet owner, outcome r1 = Resolved (wallet, owner) →
     outcome r = Rejected (InvalidTransferShape (tokenIDs req)) ∧
     ∃ message, InvalidTransferShape (tokenIDs req) = Error message ∧
                includes message (join (tokenIDs req))).
Proof.
  intros r0 r1 r H0 Hs Hlen. subst r.
  destruct (cacheGet_quiet h w cache (contractAddress req) chain)
    as (Hq1 & Hq2 & Hq3).
  destruct (resolveOwner_quiet h (world_after r0) (cache_after r0) pk chain)
    as (_ & Hr1 & Hr2 & Hr3).
  fold r0 in Hq1, Hq2, Hq3. fold r1 in Hr1, Hr2, Hr3.
  destruct (outcome r1) as [[wallet owner]|e] eqn:H1.
  - rewrite (run_transferNft_resolved h text req chain pk w cache info wallet
               owner H0 H1).
    fold r0 r1. cbn [trace outcome].
    rewrite !prepared_calls_app, !populated_calls_app, !sent_calls_app.
    rewrite Hq1, Hq2, Hq3, Hr1, Hr2, Hr3, Hs.
    rewrite transferSwitch_ERC721_other by done. cbn.
    split_and!; eauto.
    intros ? ? [= <- <-]. split; [done|].
    eexists. split; [reflexivity|]. apply includes_suffix.
  - rewrite (run_transferNft_no_signer h text req chain pk w cache info e H0 H1).
    fold r0 r1. cbn [trace outcome].
    rewrite !prepared_calls_app, !populated_calls_app, !sent_calls_app.
    rewrite Hq1, Hq2, Hq3, Hr1, Hr2, Hr3. split_and!; eauto. done.
Qed.

(** C2, witness: the spec's scenario, [tokenIDs = [1, 2]] against the
    SingleOwner contract ["0x123"]. *)
Lemma transferNft_single_owner_arity_witness :
  let r := run allSucceed (transferNft sampleText request_1_2 1 sampleSigner)
             tt ∅ in
  outcome r =
    Rejected (Error "ERC 721 transfer supports exactly 1 tokenID, received 1,2") ∧
  prepared_calls (trace r) = [].
Proof.
  pose proof (transferNft_single_owner_arity allSucceed sampleText request_1_2 1
                sampleSigner tt ∅ binding_123) as H.
  cbn zeta in H. destruct H as (_ & Hprep & _ & _ & Hshape);
    [reflexivity|reflexivity|cbn; lia|].
  split; [|exact Hprep].
  refine (proj1 (Hshape (OfSigner (SignerHandle 7)) "0xOWNER" _)). reflexivity.
Defined.

(** ** Resolution through the cache *)

(** C3.  When a resolution of [a] has succeeded with binding [info], a later
    resolution of [a] with the same chain id, in any cache that still holds
    what the first one left (nothing ever removes an entry) and whatever the
    environment has become, resolves to the same [info] and calls no
    collaborator: no second schema detection. *)
Theorem cacheGet_idempotent {W} (h : Handler W) w (cache : gmap string NftInfo)
    a chain info :
  let r1 := run h (cacheGet a chain) w cache in
  outcome r1 = Resolved info →
  ∀ w2 (cache2 : gmap string NftInfo), cache_after r1 ⊆ cache2 →
    let r2 := run h (cacheGet a chain) w2 cache2 in
    outcome r2 = Resolved info ∧
    detections (trace r2) = [] ∧
    calls_of (trace r2) = [] ∧
    cache_after r2 = cache2 ∧
    world_after r2 = w2.
Proof.
  intros r1 H1 w2 cache2 Hsub r2.
  apply cacheGet_resolved_stored in H1.
  pose proof (lookup_weaken _ _ _ _ H1 Hsub) as Hhit.
  subst r2. by rewrite (cacheGet_hit h w2 cache2 a chain info Hhit).
Qed.

(** C3, witness: ["0xABC"] resolved twice on chain 1, from an empty cache. *)
Lemma cacheGet_idempotent_witness :
  let r1 := run allSucceed (cacheGet "0xABC" 1) tt ∅ in
  let r2 := run allSucceed (cacheGet "0xABC" 1) tt (cache_after r1) in
  outcome r1 = Resolved binding_ABC ∧
  outcome r2 = Resolved binding_ABC ∧
  detections (trace r1) = [("0xABC", 1, ERC1155)] ∧
  detections (trace r2) = [].
Proof.
  pose proof (cacheGet_idempotent allSucceed tt ∅ "0xABC" 1 binding_ABC) as H.
  cbn zeta in H.
  specialize (H eq_refl tt
                (cache_after (run allSucceed (cacheGet "0xABC" 1) tt ∅))
                (reflexivity _)).
  destruct H as (H2 & Hd & _).
  split; [reflexivity|]. split; [exact H2|]. split; [reflexivity|exact Hd].
Defined.

(** C4.  When the schema detection made by a resolution of [a] answers
    [UNKNOWN], the resolution rejects with
    [Error(a + " is not an NFT contract")] and leaves the cache as it was,
    without a write.  A resolution that writes, or changes the cache, has
    detected a schema other than [UNKNOWN] and stores exactly one entry, for
    [a], with that schema.  And in every public operation, each cache write
    stores a schema other than [UNKNOWN] that a detection of the same
    operation answered for the same address. *)
Theorem cacheGet_unknown_rejected {W} (h : Handler W) text w
    (cache : gmap string NftInfo) a chain :
  let r := run h (cacheGet a chain) w cache in
  ((a, chain, UNKNOWN) ∈ detections (trace r) →
     outcome r = Rejected (NotAnNftContract a) ∧
     cache_after r = cache ∧ cache_writes (trace r) = []) ∧
  (cache_writes (trace r) ≠ [] ∨ cache_after r ≠ cache →
     ∃ nftType info,
       nftType ≠ UNKNOWN ∧ schema info = nftType ∧
       detections (trace r) = [(a, chain, nftType)] ∧
       cache_writes (trace r) = [(a, info)] ∧
       cache_after r = <[a:=info]> cache) ∧
  (∀ op w' (cache' : gmap string NftInfo) key info,
     (key, info) ∈ cache_writes (trace (run h (perform text op) w' cache')) →
     schema info ≠ UNKNOWN ∧
     ∃ chainID,
       (key, chainID, schema info)
         ∈ detections (trace (run h (perform text op) w' cache'))).
Proof.
  intros r. subst r. split_and!.
  - cbn. destruct (cache !! a) as [i|]; crunch.
    all: try (by intros ?%elem_of_nil).
    all: intros Hin%list_elem_of_singleton; by simplify_eq.
  - destruct (cacheGet_writes h w cache a chain)
      as [[-> ->]|(t & info & Ht & Hs & _ & _ & Hd & Hw & Hc)].
    + by intros [?|?].
    + intros _. by exists t, info.
  - intros op w' cache' key info.
    destruct op as [req chainID pk|req chainID pk|req chainID pk
                   |req chainID pk|req chainID pk]; cbn [perform].
    2: rewrite (proj2 (proj2 (cache_free_run h _
                 (cache_free_createERC1155Collection req chainID pk) w' cache'))).
    3: rewrite (proj2 (proj2 (cache_free_run h _
                 (cache_free_mintERC1155Token req chainID pk) w' cache'))).
    4: rewrite (proj2 (proj2 (cache_free_run h _
                 (cache_free_createERC721Collection req chainID pk) w' cache'))).
    5: rewrite (proj2 (proj2 (cache_free_run h _
                 (cache_free_mintERC721Token req chainID pk) w' cache'))).
    2-5: by intros ?%elem_of_nil.
    destruct (transferNft_cache h text req chainID pk w' cache')
      as (_ & -> & rest & ->).
    rewrite detections_app.
    destruct (cacheGet_writes h w' cache' (contractAddress req) chainID)
      as [[-> _]|(t & i & Ht & Hs & _ & _ & -> & -> & _)].
    + by intros ?%elem_of_nil.
    + intros [= -> ->]%list_elem_of_singleton. split; [by rewrite Hs|].
      exists chainID. rewrite Hs. apply elem_of_app. left.
      by apply list_elem_of_singleton.
Qed.

(** C4, witness: an address the registry does not know, resolved against a
    cache that holds two other contracts. *)
Lemma cacheGet_unknown_rejected_witness :
  let r := run allSucceed (cacheGet "0xNOPE" 1) tt sampleCache in
  ("0xNOPE", 1, UNKNOWN) ∈ detections (trace r) ∧
  outcome r = Rejected (Error "0xNOPE is not an NFT contract") ∧
  cache_after r = sampleCache.
Proof.
  assert (Hin : ("0xNOPE", 1, UNKNOWN)
                  ∈ detections
                      (trace (run allSucceed (cacheGet "0xNOPE" 1) tt sampleCache))).
  { apply list_elem_of_singleton. reflexivity. }
  split; [exact Hin|].
  destruct (proj1 (cacheGet_unknown_rejected allSucceed sampleText tt sampleCache
                     "0xNOPE" 1) Hin) as (Ho & Hc & _).
  split; [exact Ho|exact Hc].
Defined.

(** ** The [switch] over the schema *)

(** C5, counterexample.  The SingleOwner case with [tokenIDs = [1, 2]]
    neither builds a transaction nor fails with the unsupported-schema
    error: it fails with the arity error. *)
Lemma arity_error_is_not_unsupported_schema :
  let r := run allSucceed (transferNft sampleText request_1_2 1 sampleSigner)
             tt sampleCache in
  sampleCache !! "0x123" = Some binding_123 ∧
  transferSwitch sampleText ERC721 (contract binding_123) "0xOWNER" request_1_2
    = Throw (InvalidTransferShape ["1"; "2"]) ∧
  outcome r = Rejected (InvalidTransferShape ["1"; "2"]) ∧
  populated_calls (trace r) = [] ∧
  outcome r ≠ Rejected (UnsupportedSchema sampleText ERC721).
Proof. cbn zeta. split_and!; [reflexivity..|]. vm_compute. discriminate. Qed.

(** C5, as amended.  For every schema value reaching the [switch], the
    statement never completes without a built transaction: it builds the
    call of the SingleOwner or MultiOwner case, or throws a named error, the
    arity error (SingleOwner, [tokenIDs.length !== 1]), a [TypeError]
    (MultiOwner, at most one token id and no [amounts]), or, for any schema
    other than ERC721 and ERC1155,
    [Error("Unsupported NFT type: " + schema)].  Accordingly every
    transaction a transfer hands to the transaction service is one that
    [populateTransaction] returned. *)
Theorem transferSwitch_exhaustive text schema c owner req :
  let p := transferSwitch text schema c owner req in
  (∀ tx, p ≠ Ret tx) ∧
  ((schema = ERC721 ∧ length (tokenIDs req) = 1%nat ∧
    p = call (PopulateTransaction c
                (safeTransferFrom_address_address_uint256 owner (receiver req)
                   (tokenIDs req !! 0%nat)))) ∨
   (schema = ERC721 ∧ length (tokenIDs req) ≠ 1%nat ∧
    p = Throw (InvalidTransferShape (tokenIDs req))) ∨
   (schema = ERC1155 ∧ (1 < length (tokenIDs req))%nat ∧
    p = call (PopulateTransaction c
                (safeBatchTransferFrom owner (receiver req) (tokenIDs req)
                   (amounts req) "0x"))) ∨
   (schema = ERC1155 ∧ ¬ (1 < length (tokenIDs req))%nat ∧
    ∃ values, amounts req = Some values ∧
      p = call (PopulateTransaction c
                  (safeTransferFrom owner (receiver req) (tokenIDs req !! 0%nat)
                     (values !! 0%nat) "0x"))) ∨
   (schema = ERC1155 ∧ ¬ (1 < length (tokenIDs req))%nat ∧
    amounts req = None ∧ p = Throw TypeError) ∨
   (schema ≠ ERC721 ∧ schema ≠ ERC1155 ∧
    p = Throw (UnsupportedSchema text schema))) ∧
  (∀ W (h : Handler W) w (cache : gmap string NftInfo) chain pk request n,
     let r := run h (transferNft text req chain pk) w cache in
     (request, n) ∈ prepared_calls (trace r) →
     ∃ c' m,
       EvCall (PopulateTransaction c' m) (inr (populated request)) ∈ trace r).
Proof.
  intros p. split_and!; [|apply transferSwitch_cases|].
  - intros tx. subst p.
    destruct (transferSwitch_cases text schema c owner req)
      as [(_ & _ & ->)|[(_ & _ & ->)|[(_ & _ & ->)|[(_ & _ & v & _ & ->)
         |[(_ & _ & _ & ->)|(_ & _ & ->)]]]]]; done.
  - intros W h w cache chain pk request n r.
    apply transferNft_prepares_what_it_built.
Qed.

(** C5, witness: the batch transfer of the spec's scenario reaches the
    transaction service with the transaction [populateTransaction] built. *)
Lemma transferSwitch_exhaustive_witness :
  let r := run allSucceed (transferNft sampleText request_7_8 1 sampleSigner)
             tt ∅ in
  prepared_calls (trace r) =
    [({| populated := {| tx_to := "0xABC"; tx_data := "0xf242432a" |};
         from := "0xOWNER"; chainId := 1 |}, 1)] ∧
  ∃ c m,
    EvCall (PopulateTransaction c m)
      (inr {| tx_to := "0xABC"; tx_data := "0xf242432a" |}) ∈ trace r.
Proof.
  split; [reflexivity|].
  refine (proj2 (proj2 (transferSwitch_exhaustive sampleText ERC1155
                          (contract binding_ABC) "0xOWNER" request_7_8))
            unit allSucceed tt ∅ 1 sampleSigner
            {| populated := {| tx_to := "0xABC"; tx_data := "0xf242432a" |};
               from := "0xOWNER"; chainId := 1 |} 1 _).
  apply list_elem_of_singleton. reflexivity.
Defined.

(** C6.  The cache is keyed by the contract address alone.  For an address
    already in the cache, a resolution with any chain id returns the stored
    binding, after one cache read and without calling a collaborator; cache
    and environment are as before. *)
Theorem cacheGet_address_only {W} (h : Handler W) w
    (cache : gmap string NftInfo) a info :
  cache !! a = Some info →
  ∀ chain,
    let r := run h (cacheGet a chain) w cache in
    outcome r = Resolved info ∧
    calls_of (trace r) = [] ∧
    trace r = [EvRead a (Some info)] ∧
    cache_after r = cache ∧
    world_after r = w.
Proof.
  intros Hhit chain r. subst r.
  by rewrite (cacheGet_hit h w cache a chain info Hhit).
Qed.

(** C6, witness: ["0xABC"] is resolved on chain 1, then on chain 5; the
    second resolution returns the binding made for chain 1. *)
Lemma cacheGet_address_only_witness :
  let r1 := run allSucceed (cacheGet "0xABC" 1) tt ∅ in
  let r2 := run allSucceed (cacheGet "0xABC" 5) tt (cache_after r1) in
  cache_after r1 !! "0xABC" = Some binding_ABC ∧
  outcome r2 = Resolved binding_ABC ∧
  provider (contract binding_ABC) = ProviderHandle 1 ∧
  calls_of (trace r2) = [].
Proof.
  assert (Hhit : cache_after (run allSucceed (cacheGet "0xABC" 1) tt ∅) !! "0xABC"
                 = Some binding_ABC) by reflexivity.
  split; [exact Hhit|].
  destruct (cacheGet_address_only allSucceed tt _ "0xABC" binding_ABC Hhit 5)
    as (Ho & Hcalls & _).
  split; [exact Ho|]. split; [reflexivity|exact Hcalls].
Defined.

(** ** Minting *)

(** C7.  Neither mint method touches the cache.  Whatever the environment
    answers, the run of [mintERC721Token] (and of [mintERC1155Token]) reads
    nothing from the cache and writes nothing to it, ends with the cache it
    started with, and proceeds the same from any other cache; and whatever
    call it builds is built on a contract object it has just connected, of
    the method's own interface and at the request's address. *)
Theorem mint_bypasses_cache {W} (h : Handler W) w (cache : gmap string NftInfo)
    chain pk :
  (∀ req,
     let r := run h (mintERC721Token req chain pk) w cache in
     cache_after r = cache ∧
     cache_reads (trace r) = [] ∧ cache_writes (trace r) = [] ∧
     (∀ cache' : gmap string NftInfo,
        let r' := run h (mintERC721Token req chain pk) w cache' in
        outcome r' = outcome r ∧ world_after r' = world_after r ∧
        trace r' = trace r) ∧
     Forall (λ built : Contract * Method,
               interface built.1 = LiqERC721__factory ∧
               address built.1 = mint721_contractAddress req)
            (populated_calls (trace r))) ∧
  (∀ req,
     let r := run h (mintERC1155Token req chain pk) w cache in
     cache_after r = cache ∧
     cache_reads (trace r) = [] ∧ cache_writes (trace r) = [] ∧
     (∀ cache' : gmap string NftInfo,
        let r' := run h (mintERC1155Token req chain pk) w cache' in
        outcome r' = outcome r ∧ world_after r' = world_after r ∧
        trace r' = trace r) ∧
     Forall (λ built : Contract * Method,
               interface built.1 = LiqERC1155__factory ∧
               address built.1 = mint1155_contractAddress req)
            (populated_calls (trace r))).
Proof.
  split; intros req r; subst r.
  - destruct (cache_free_run h _ (cache_free_mintERC721Token req chain pk) w cache)
      as (Hc & Hr & Hw).
    split_and!; [done..| |].
    + intros cache'. apply cache_free_independent, cache_free_mintERC721Token.
    + clear. unfold mintERC721Token, getWallet. destruct pk; exec.
      all: repeat constructor.
  - destruct (cache_free_run h _ (cache_free_mintERC1155Token req chain pk) w cache)
      as (Hc & Hr & Hw).
    split_and!; [done..| |].
    + intros cache'. apply cache_free_independent, cache_free_mintERC1155Token.
    + clear. unfold mintERC1155Token, getWallet. destruct pk; exec.
      all: repeat constructor.
Qed.

(** C8, counterexample.  A mint whose preparation is rejected and a mint
    whose broadcast is rejected, each with the cause
    [Error("network error")], hand the caller the very same value: nothing
    the caller inspects tells a failed preparation from a failed
    broadcast. *)
Lemma mint_failure_sources_not_distinct :
  let p721 := mintERC721Token mint_request_721 1 sampleSigner in
  let p1155 := mintERC1155Token mint_request_1155 1 sampleSigner in
  (∃ tx n, rejection (trace (run preparationRejects p721 tt ∅))
           = Some (PrepareTransaction tx n, Error "network error")) ∧
  (∃ wallet tx, rejection (trace (run broadcastRejects p721 tt ∅))
                = Some (SendTransaction wallet tx, Error "network error")) ∧
  surfaced (run preparationRejects p721 tt ∅) = Some (Error "network error") ∧
  surfaced (run broadcastRejects p721 tt ∅) = Some (Error "network error") ∧
  surfaced (run preparationRejects p1155 tt ∅)
    = surfaced (run broadcastRejects p1155 tt ∅) ∧
  ¬ ∃ classify : Exn → FailureSource,
      (∀ e, surfaced (run preparationRejects p721 tt ∅) = Some e →
            classify e = Preparation) ∧
      (∀ e, surfaced (run broadcastRejects p721 tt ∅) = Some e →
            classify e = Broadcast).
Proof.
  cbn zeta. split_and!.
  - by eexists _, _.
  - by eexists _, _.
  - reflexivity.
  - reflexivity.
  - reflexivity.
  - intros (classify & Hp & Hb).
    specialize (Hp (Error "network error") eq_refl).
    specialize (Hb (Error "network error") eq_refl). congruence.
Qed.

(** C8, as amended.  In both mint methods a rejected call is handed to the
    caller as it is: the run rejects with the very cause the collaborator
    gave, be it the transaction service, the wallet on sending, or signer
    resolution; after a rejected preparation nothing is sent; and a mint
    fails in no other way.  No error of the service's own is put around the
    cause. *)
Theorem mint_failures_propagate {W} (h : Handler W) w
    (cache : gmap string NftInfo) chain pk :
  (∀ req,
     let r := run h (mintERC721Token req chain pk) w cache in
     (∀ c e, rejection (trace r) = Some (c, e) → outcome r = Rejected e) ∧
     (∀ tx n e,
        rejection (trace r) = Some (PrepareTransaction tx n, e) →
        sent_calls (trace r) = []) ∧
     (∀ e, outcome r = Rejected e → ∃ c, rejection (trace r) = Some (c, e))) ∧
  (∀ req,
     let r := run h (mintERC1155Token req chain pk) w cache in
     (∀ c e, rejection (trace r) = Some (c, e) → outcome r = Rejected e) ∧
     (∀ tx n e,
        rejection (trace r) = Some (PrepareTransaction tx n, e) →
        sent_calls (trace r) = []) ∧
     (∀ e, outcome r = Rejected e → ∃ c, rejection (trace r) = Some (c, e))).
Proof.
  split; intros req r; subst r;
    unfold rejection, mintERC721Token, mintERC1155Token, getWallet,
      prepareAndSend;
    destruct pk; exec.
  all: split_and!; intros; simplify_eq; eauto.
Qed.

(** C8, witness: a mint under an environment whose transaction service
    rejects. *)
Lemma mint_failures_propagate_witness :
  let r := run preparationRejects (mintERC721Token mint_request_721 1 sampleSigner)
             tt ∅ in
  outcome r = Rejected (Error "network error") ∧ sent_calls (trace r) = [].
Proof.
  destruct (mint_failures_propagate preparationRejects tt ∅ 1 sampleSigner)
    as [H721 _].
  destruct (H721 mint_request_721) as (Hany & Hprep & _).
  split.
  - eapply Hany. reflexivity.
  - eapply Hprep. reflexivity.
Defined.

(** ** What the cache holds *)

(** C9.  The entries stored have schema ERC721 or ERC1155, but not every
    binding obtained through the cache is a stored entry.  On a fresh cache
    a transfer whose [contractAddress] is ["constructor"] finds the
    constructor every plain object inherits: the cache test succeeds, no
    schema is detected and nothing is stored, the value returned has no
    [schema], and the [switch] takes its [default] branch and throws
    [Error("Unsupported NFT type: undefined")]. *)
Lemma inherited_name_reaches_default_branch :
  let r := run allSucceed
             (transferNft_js sampleText request_constructor 1 sampleSigner)
             tt ∅ in
  contractAddress request_constructor = "constructor" ∧
  outcome (run allSucceed (cacheGet_js "constructor" 1) tt ∅)
    = Resolved (Some (Inherited "constructor")) ∧
  outcome r = Rejected (Error "Unsupported NFT type: undefined") ∧
  detections (trace r) = [] ∧
  cache_writes (trace r) = [] ∧
  cache_after r = ∅.
Proof. cbn zeta. split_and!; reflexivity. Qed.

(** ** No validation of [amounts] *)

(** C10.  The MultiOwner case never checks [amounts].  With more than one
    token id it builds the batch call with [amounts] as given, and it never
    throws the arity error.  There are requests with [amounts] absent, with
    [amounts] shorter than [tokenIDs], and with [tokenIDs] empty, for which
    it builds the call all the same: the batch call carrying the absent or
    short [amounts], and the single call carrying the [undefined] results of
    [tokenIDs[0]] and [amounts[0]]. *)
Theorem multi_owner_amounts_unchecked text c owner :
  (∀ req, (1 < length (tokenIDs req))%nat →
     transferSwitch text ERC1155 c owner req =
       call (PopulateTransaction c
               (safeBatchTransferFrom owner (receiver req) (tokenIDs req)
                  (amounts req) "0x"))) ∧
  (∃ req,
     amounts req = None ∧
     transferSwitch text ERC1155 c owner req =
       call (PopulateTransaction c
               (safeBatchTransferFrom owner (receiver req) (tokenIDs req)
                  None "0x"))) ∧
  (∃ req values,
     amounts req = Some values ∧
     (length values < length (tokenIDs req))%nat ∧
     transferSwitch text ERC1155 c owner req =
       call (PopulateTransaction c
               (safeBatchTransferFrom owner (receiver req) (tokenIDs req)
                  (Some values) "0x")) ∧
     populated_calls
       (trace (run allSucceed (transferNft text req 1 sampleSigner)
                 tt sampleCache)) =
       [(contract binding_ABC,
         safeBatchTransferFrom "0xOWNER" (receiver req) (tokenIDs req)
           (Some values) "0x")]) ∧
  (∃ req,
     tokenIDs req = [] ∧
     transferSwitch text ERC1155 c owner req =
       call (PopulateTransaction c
               (safeTransferFrom owner (receiver req) None None "0x"))) ∧
  (∀ req ids, transferSwitch text ERC1155 c owner req
              ≠ Throw (InvalidTransferShape ids)).
Proof.
  split_and!.
  - intros req Hlen. by apply transferSwitch_ERC1155_batch.
  - by exists request_7_8_absent.
  - exists request_7_8_short, [3].
    split_and!; [done|cbn; lia|done|done].
  - by exists request_empty.
  - intros req ids.
    destruct (transferSwitch_cases text ERC1155 c owner req)
      as [(? & _)|[(? & _)|[(_ & _ & ->)|[(_ & _ & v & _ & ->)
         |[(_ & _ & _ & ->)|(_ & ? & _)]]]]]; done.
Qed.

(** C10, witness: two token ids with a single amount go out as a batch call
    with the one amount. *)
Lemma multi_owner_amounts_unchecked_witness :
  (1 < length (tokenIDs request_7_8_short))%nat ∧
  transferSwitch sampleText ERC1155 (contract binding_ABC) "0xOWNER"
    request_7_8_short =
    call (PopulateTransaction (contract binding_ABC)
            (safeBatchTransferFrom "0xOWNER" "0xDEF" ["7"; "8"] (Some [3]) "0x")).
Proof.
  assert (Hlen : (1 < length (tokenIDs request_7_8_short))%nat) by (cbn; lia).
  split; [exact Hlen|].
  exact (proj1 (multi_owner_amounts_unchecked sampleText (contract binding_ABC)
                  "0xOWNER") request_7_8_short Hlen).
Defined.
(** * Further properties of the service *)

(** ** Calls a program never makes *)

Lemma avoids_bind {A B} bad (p : Prog A) (f : A → Prog B) :
  avoids bad p → (∀ a, avoids bad (f a)) → avoids bad (p ≫= f).
Proof.
  change (p ≫= f) with (bind p f).
  induction p as [a|e|key k IH|key info k IH|c k IH]; cbn; intros Hp Hf; auto.
  destruct Hp as [Hc Hk]. auto.
Qed.

Lemma avoids_run {W R} (h : Handler W) bad (p : Prog R) :
  avoids bad p →
  ∀ w (cache : gmap string NftInfo),
    Forall (λ c, bad c = false) (calls_of (trace (run h p w cache))).
Proof.
  induction p as [a|e|key k IH|key info k IH|c k IH]; cbn; intros Hp w cache;
    auto.
  destruct Hp as [Hc Hk]. destruct (h c w) as [[e|x] w']; cbn.
  - by repeat constructor.
  - constructor; [done|]. by apply IH.
Qed.


(** ** What [cacheGet] stores *)

Lemma cacheGet_stores {W} (h : Handler W) w (cache : gmap string NftInfo) a chain :
  let r := run h (cacheGet a chain) w cache in
  (cache_after r = cache ∧ cache_writes (trace r) = [] ∧
   ∀ info, outcome r = Resolved info → cache !! a = Some info) ∨
  (∃ nftType p,
     let info := {| contract := attach (connect (factory_of nftType) AddressZero p) a;
                    schema := nftType |} in
     nftType ≠ UNKNOWN ∧ cache !! a = None ∧
     outcome r = Resolved info ∧
     calls_of (trace r) = [GetNftType a chain; GetChainProvider chain] ∧
     EvCall (GetChainProvider chain) (inr p) ∈ trace r ∧
     cache_after r = <[a:=info]> cache).
Proof.
  cbn. destruct (cache !! a) as [i|] eqn:Hhit; cbn.
  { left. split_and!; [done..|]. by intros info [= ->]. }
  ask; cbn; [by left|]. case_decide as Hn; cbn; [|by left].
  ask; cbn; [by left|]. right.
  refine (ex_intro _ _ (ex_intro _ _ (conj Hn (conj eq_refl (conj eq_refl
            (conj eq_refl (conj _ eq_refl))))))).
  do 2 apply list_elem_of_further. apply list_elem_of_here.
Qed.

(** A resolution that rejects has not written. *)
Lemma cacheGet_failure_leaves_cache_aux {W} (h : Handler W) w
    (cache : gmap string NftInfo) a chain e :
  outcome (run h (cacheGet a chain) w cache) = Rejected e →
  cache_after (run h (cacheGet a chain) w cache) = cache.
Proof.
  intros Hr.
  destruct (cacheGet_stores h w cache a chain)
    as [(Hc & _)|(t & p & _ & _ & Ho & _)]; [done|].
  by rewrite Ho in Hr.
Qed.

(** X1.  A resolution that fails, for whatever reason, leaves the cache as it
    found it and writes nothing; and this is so whether the registry
    rejected the query, answered [UNKNOWN], or the chain provider could not
    be obtained after a successful detection. *)
Theorem cacheGet_failure_leaves_cache {W} (h : Handler W) w
    (cache : gmap string NftInfo) a chain e :
  let r := run h (cacheGet a chain) w cache in
  outcome r = Rejected e →
  cache_after r = cache ∧ cache_writes (trace r) = [] ∧ cache !! a = None ∧
  (e = NotAnNftContract a ∨ ∃ c, rejection (trace r) = Some (c, e)).
Proof.
  cbn. destruct (cache !! a) as [i|] eqn:Hhit; cbn; [done|].
  ask; cbn.
  { intros [= ->]. split_and!; [done..|]. right. by eexists. }
  case_decide as Hn; cbn.
  - ask; cbn; [|done]. intros [= ->]. split_and!; [done..|]. right. by eexists.
  - intros [= <-]. split_and!; [done..|]. by left.
Qed.

(** X1, witness: the schema is detected, then the chain provider is refused. *)
Lemma cacheGet_failure_leaves_cache_witness :
  let r := run providerRejects (cacheGet "0xABC" 1) tt ∅ in
  outcome r = Rejected (Error "unsupported chain") ∧
  detections (trace r) = [("0xABC", 1, ERC1155)] ∧
  cache_after r = ∅.
Proof.
  assert (H : outcome (run providerRejects (cacheGet "0xABC" 1) tt ∅)
              = Rejected (Error "unsupported chain")) by reflexivity.
  split; [exact H|]. split; [reflexivity|].
  exact (proj1 (cacheGet_failure_leaves_cache providerRejects tt ∅
                  "0xABC" 1 _ H)).
Defined.



(** ** Bindings and the contracts they are made for *)

Lemma avoids_transferSwitch bad text schema c owner req :
  (∀ ct m, bad (PopulateTransaction ct m) = false) →
  avoids bad (transferSwitch text schema c owner req).
Proof.
  intros Hbad. destruct schema; cbn; repeat case_decide; cbn; auto.
  destruct (amounts req); cbn; auto.
Qed.




(** The calls the [switch] and the submission make are on the binding's
    contract, with a method of the interface that goes with the schema. *)
Lemma run_transferNft_rest_populated {W} (h : Handler W) text req chain w
    (cache : gmap string NftInfo) schema c wallet owner :
  let r := run h (tx ← transferSwitch text schema c owner req;
                  prepareAndSend tx owner chain wallet) w cache in
  ∀ c' m, (c', m) ∈ populated_calls (trace r) →
    c' = c ∧ schema ≠ UNKNOWN ∧ method_interface m = Some (factory_of schema).
Proof.
  intros r. subst r.
  destruct (transferSwitch_cases text schema c owner req)
    as [(-> & _ & ->)|[(_ & _ & ->)|[(-> & _ & ->)|[(-> & _ & v & _ & ->)
       |[(_ & _ & _ & ->)|(_ & _ & ->)]]]]]; unfold prepareAndSend; exec.
  all: intros c' m Hin; try (by apply elem_of_nil in Hin).
  all: by apply list_elem_of_singleton in Hin as [= -> ->].
Qed.

Lemma perform_cache_stores {W} (h : Handler W) text op w
    (cache : gmap string NftInfo) :
  let r := run h (perform text op) w cache in
  cache_after r = cache ∨
  ∃ a nftType p,
    nftType ≠ UNKNOWN ∧
    cache_after r =
      <[a:={| contract := attach (connect (factory_of nftType) AddressZero p) a;
              schema := nftType |}]> cache.
Proof.
  destruct op as [req chainID pk|req chainID pk|req chainID pk
                 |req chainID pk|req chainID pk]; cbn [perform].
  2: left; apply (cache_free_run h), cache_free_createERC1155Collection.
  2: left; apply (cache_free_run h), cache_free_mintERC1155Token.
  2: left; apply (cache_free_run h), cache_free_createERC721Collection.
  2: left; apply (cache_free_run h), cache_free_mintERC721Token.
  destruct (transferNft_cache h text req chainID pk w cache) as (-> & _).
  destruct (cacheGet_stores h w cache (contractAddress req) chainID)
    as [(-> & _)|(t & p & Ht & _ & _ & _ & _ & ->)]; [by left|].
  right. by exists (contractAddress req), t, p.
Qed.

Lemma reachable_binding_for {W} (h : Handler W) text
    (cache : gmap string NftInfo) :
  reachable h text cache →
  ∀ a info, cache !! a = Some info →
    address (contract info) = a ∧ schema info ≠ UNKNOWN ∧
    interface (contract info) = factory_of (schema info).
Proof.
  induction 1 as [|cache op w Hreach IH]; intros a info.
  - by rewrite lookup_empty.
  - destruct (perform_cache_stores h text op w cache)
      as [->|(a' & t & p & Ht & ->)]; [apply IH|].
    destruct (decide (a' = a)) as [->|Hne].
    + rewrite lookup_insert_eq. by intros [= <-].
    + rewrite lookup_insert_ne by done. apply IH.
Qed.

(** X4.  Every cache the process can reach maps an address to a binding made
    for that very address, whose contract interface is the one that goes
    with its schema (LiqERC1155 for ERC1155, LiqERC721 for ERC721).  So the
    casts [contract as LiqERC721] and [contract as LiqERC1155] in
    [transferNft] are always right: every call a transfer builds is on the
    contract at the request's address and uses a method of that contract's
    own interface. *)
Theorem cached_bindings_match_contracts {W} (h : Handler W) text
    (cache : gmap string NftInfo) :
  reachable h text cache →
  (∀ a info, cache !! a = Some info →
     address (contract info) = a ∧
     interface (contract info) = factory_of (schema info)) ∧
  (∀ w req chain pk c m,
     (c, m) ∈ populated_calls
                (trace (run h (transferNft text req chain pk) w cache)) →
     address c = contractAddress req ∧
     method_interface m = Some (interface c)).
Proof.
  intros Hreach. pose proof (reachable_binding_for h text cache Hreach) as Hwf.
  split; [intros a info Hin; by destruct (Hwf a info Hin) as (? & _ & ?)|].
  intros w req chain pk c m.
  destruct (cacheGet_quiet h w cache (contractAddress req) chain) as (Hq & _).
  destruct (outcome (run h (cacheGet (contractAddress req) chain) w cache))
    as [info|e] eqn:H0.
  2:{ rewrite (run_transferNft_unresolved h text req chain pk w cache e H0).
      cbn [trace]. rewrite Hq. by intros ?%elem_of_nil. }
  assert (address (contract info) = contractAddress req ∧
          interface (contract info) = factory_of (schema info)) as [Ha Hi].
  { destruct (cacheGet_stores h w cache (contractAddress req) chain)
      as [(_ & _ & Hhit)|(t & p & _ & _ & Ho & _)].
    - by destruct (Hwf _ _ (Hhit info H0)) as (? & _ & ?).
    - rewrite Ho in H0. by injection H0 as <-. }
  destruct (resolveOwner_quiet h
              (world_after (run h (cacheGet (contractAddress req) chain) w cache))
              (cache_after (run h (cacheGet (contractAddress req) chain) w cache))
              pk chain) as (_ & Hr & _).
  destruct (outcome (run h (resolveOwner pk chain)
              (world_after (run h (cacheGet (contractAddress req) chain) w cache))
              (cache_after (run h (cacheGet (contractAddress req) chain) w cache))))
    as [[wallet owner]|e] eqn:H1.
  2:{ rewrite (run_transferNft_no_signer h text req chain pk w cache info e H0 H1).
      cbn [trace]. rewrite populated_calls_app, Hq, Hr. by intros ?%elem_of_nil. }
  rewrite (run_transferNft_resolved h text req chain pk w cache info wallet
             owner H0 H1).
  cbn [trace]. rewrite !populated_calls_app, Hq, Hr. cbn [app].
  intros Hin. apply run_transferNft_rest_populated in Hin as (-> & _ & ->).
  by rewrite Hi.
Qed.

(** X4, witness: the cache after one batch transfer. *)
Lemma cached_bindings_match_contracts_witness :
  let cache :=
    cache_after
      (run allSucceed (perform sampleText (TransferNft request_7_8 1 sampleSigner))
         tt ∅) in
  cache !! "0xABC" = Some binding_ABC ∧
  address (contract binding_ABC) = "0xABC" ∧
  interface (contract binding_ABC) = LiqERC1155__factory.
Proof.
  split; [reflexivity|].
  refine (proj1 (cached_bindings_match_contracts allSucceed sampleText _
                   (reachable_perform allSucceed sampleText ∅
                      (TransferNft request_7_8 1 sampleSigner) tt
                      (reachable_initial allSucceed sampleText)))
                "0xABC" binding_ABC _).
  reflexivity.
Defined.



(** ** How operations fail *)

Lemma rejection_cons (ev : Event) (t : list Event) c e :
  rejection t = Some (c, e) → rejection (ev :: t) = Some (c, e).
Proof.
  unfold rejection. destruct t as [|ev' t]; [done|].
  by rewrite last_cons_cons.
Qed.

(** A run that rejects either hands over the cause of a rejected call or an
    error the program throws itself; and a rejected call always ends the
    run with its cause. *)
Lemma run_rejected_cases {W R} (h : Handler W) (p : Prog R) w
    (cache : gmap string NftInfo) e :
  outcome (run h p w cache) = Rejected e →
  (∃ c, rejection (trace (run h p w cache)) = Some (c, e)) ∨ throws p e.
Proof.
  revert w cache. induction p as [a|e'|key k IH|key info k IH|c k IH];
    intros w cache; cbn.
  - done.
  - intros [= ->]. by right.
  - intros Hr. destruct (IH _ _ _ Hr) as [[c Hc]|Ht].
    + left. exists c. by apply rejection_cons.
    + right. eauto.
  - intros Hr. destruct (IH _ _ Hr) as [[c Hc]|Ht].
    + left. exists c. by apply rejection_cons.
    + by right.
  - destruct (h c w) as [[e'|x] w']; cbn.
    + intros [= ->]. left. by exists c.
    + intros Hr. destruct (IH _ _ _ Hr) as [[c' Hc]|Ht].
      * left. exists c'. by apply rejection_cons.
      * right. eauto.
Qed.

Lemma run_rejection_propagates {W R} (h : Handler W) (p : Prog R) w
    (cache : gmap string NftInfo) c e :
  rejection (trace (run h p w cache)) = Some (c, e) →
  outcome (run h p w cache) = Rejected e.
Proof.
  revert w cache. induction p as [a|e'|key k IH|key info k IH|c' k IH];
    intros w cache; cbn; try done.
  - unfold rejection. cbn.
    destruct (trace (run h (k (cache !! key)) w cache)) as [|ev t] eqn:Ht;
      [done|].
    rewrite last_cons_cons. intros Hl. apply IH. unfold rejection. by rewrite Ht.
  - unfold rejection. cbn.
    destruct (trace (run h k w (<[key:=info]> cache))) as [|ev t] eqn:Ht; [done|].
    rewrite last_cons_cons. intros Hl. apply IH. unfold rejection. by rewrite Ht.
  - destruct (h c' w) as [[e'|x] w']; cbn.
    + by intros [= _ ->].
    + unfold rejection. cbn.
      destruct (trace (run h (k x) w' cache)) as [|ev t] eqn:Ht; [done|].
      rewrite last_cons_cons. intros Hl. apply IH. unfold rejection.
      by rewrite Ht.
Qed.

Lemma throws_bind {A B} (p : Prog A) (f : A → Prog B) e :
  throws (p ≫= f) e → throws p e ∨ ∃ a, throws (f a) e.
Proof.
  change (p ≫= f) with (bind p f).
  induction p as [a|e'|key k IH|key info k IH|c k IH]; cbn.
  - eauto.
  - auto.
  - intros [found Hf]. destruct (IH _ Hf) as [?|?]; eauto.
  - intros Hk. destruct (IH Hk) as [?|?]; eauto.
  - intros [x Hx]. destruct (IH _ Hx) as [?|?]; eauto.
Qed.

Lemma throws_getWallet pk chain e : ¬ throws (getWallet pk chain) e.
Proof. destruct pk; intros Ht; cbn in Ht; [by destruct Ht as (? & ? & ?)|done]. Qed.






(** X7.  The collection-creating operations throw nothing of their own: they
    fail exactly when a collaborator rejects a call, with that cause, and
    they never build, prepare or send a transaction, never ask for a
    schema, and leave the cache alone. *)
Theorem create_collection_failures {W} (h : Handler W) w
    (cache : gmap string NftInfo) chain pk :
  (∀ req,
     let r := run h (createERC721Collection req chain pk) w cache in
     (∀ e, outcome r = Rejected e ↔ ∃ c, rejection (trace r) = Some (c, e)) ∧
     Forall (λ c, is_submission c = false ∧ is_detection c = false)
            (calls_of (trace r)) ∧
     cache_after r = cache) ∧
  (∀ req,
     let r := run h (createERC1155Collection req chain pk) w cache in
     (∀ e, outcome r = Rejected e ↔ ∃ c, rejection (trace r) = Some (c, e)) ∧
     Forall (λ c, is_submission c = false ∧ is_detection c = false)
            (calls_of (trace r)) ∧
     cache_after r = cache).
Proof.
  split; intros req r; subst r.
  - split_and!.
    + intros e. split.
      * intros Hr. destruct (run_rejected_cases h _ w cache e Hr) as [?|Ht];
          [done|].
        unfold createERC721Collection in Ht.
        apply throws_bind in Ht as [Hw|[wl Ht]];
          [by destruct (throws_getWallet _ _ _ Hw)|]. by destruct Ht.
      * intros [c Hc]. by eapply run_rejection_propagates.
    + unfold createERC721Collection, getWallet. destruct pk; exec.
      all: by repeat constructor.
    + apply (cache_free_run h), cache_free_createERC721Collection.
  - split_and!.
    + intros e. split.
      * intros Hr. destruct (run_rejected_cases h _ w cache e Hr) as [?|Ht];
          [done|].
        unfold createERC1155Collection in Ht.
        apply throws_bind in Ht as [Hw|[wl Ht]];
          [by destruct (throws_getWallet _ _ _ Hw)|].
        apply throws_bind in Ht as [Hw|[wl2 Ht]];
          [by destruct (throws_getWallet _ _ _ Hw)|]. by destruct Ht as (? & ? & ?).
      * intros [c Hc]. by eapply run_rejection_propagates.
    + unfold createERC1155Collection, getWallet. destruct pk; exec.
      all: by repeat constructor.
    + apply (cache_free_run h), cache_free_createERC1155Collection.
Qed.

(** X7, witness: a deployment rejected for want of a chain provider. *)
Lemma create_collection_failures_witness :
  let r := run providerRejects
             (createERC721Collection create_request_721 1 (Pk "0xKEY")) tt ∅ in
  rejection (trace r) = Some (GetChainProvider 1, Error "unsupported chain") ∧
  outcome r = Rejected (Error "unsupported chain").
Proof.
  assert (H : rejection
                (trace (run providerRejects
                          (createERC721Collection create_request_721 1
                             (Pk "0xKEY")) tt ∅))
              = Some (GetChainProvider 1, Error "unsupported chain"))
    by reflexivity.
  split; [exact H|].
  destruct (proj1 (create_collection_failures providerRejects tt ∅ 1
                     (Pk "0xKEY")) create_request_721) as (Hiff & _).
  apply Hiff. by eexists.
Defined.


(** ** Transfers from request to broadcast *)

Lemma addresses_read_app (t1 t2 : list Event) :
  addresses_read (t1 ++ t2) = addresses_read t1 ++ addresses_read t2.
Proof. unfold addresses_read. by rewrite omap_app. Qed.

Lemma cacheGet_calls {W} (h : Handler W) w (cache : gmap string NftInfo) a chain :
  let r := run h (cacheGet a chain) w cache in
  addresses_read (trace r) = [] ∧
  (calls_of (trace r) = [] ∨
   calls_of (trace r) = [GetNftType a chain] ∨
   calls_of (trace r) = [GetNftType a chain; GetChainProvider chain]) ∧
  (∀ e, outcome r = Rejected e → calls_of (trace r) ≠ []).
Proof. cbn. destruct (cache !! a); crunch; auto. Qed.

(** A signer that resolves has told its address last. *)
Lemma resolveOwner_resolved {W} (h : Handler W) w (cache : gmap string NftInfo)
    pk chain wallet owner :
  let r := run h (resolveOwner pk chain) w cache in
  outcome r = Resolved (wallet, owner) →
  owner ∈ addresses_read (trace r) ∧
  last (trace r) = Some (EvCall (GetAddress wallet) (inr owner)).
Proof.
  destruct pk; exec; intros [= <- <-]; split; try done.
  all: cbn; repeat constructor.
Qed.

(** What follows the [switch] when the transfer goes through. *)
Lemma run_transferNft_rest_resolved {W} (h : Handler W) text req chain w
    (cache : gmap string NftInfo) info wallet owner hsh :
  let r := run h (tx ← transferSwitch text (schema info) (contract info) owner req;
                  prepareAndSend tx owner chain wallet) w cache in
  outcome r = Resolved hsh →
  ∃ m tx prepared response,
    trace r =
      [EvCall (PopulateTransaction (contract info) m) (inr tx);
       EvCall (PrepareTransaction
                 {| populated := tx; from := owner; chainId := chain |} chain)
              (inr prepared);
       EvCall (SendTransaction wallet prepared) (inr response)] ∧
    hash response = hsh.
Proof.
  intros r. subst r.
  destruct (transferSwitch_cases text (schema info) (contract info) owner req)
    as [(_ & _ & ->)|[(_ & _ & ->)|[(_ & _ & ->)|[(_ & _ & v & _ & ->)
       |[(_ & _ & _ & ->)|(_ & _ & ->)]]]]]; unfold prepareAndSend; exec.
  all: intros [= <-]; by eexists _, _, _, _.
Qed.

(** X8.  A transfer that returns a transaction hash has gone the whole way,
    in order: the binding resolved, the signer resolved to [owner], one call
    was populated on the binding's contract, the populated transaction was
    handed to the transaction service with [from = owner] and the
    [chainId] of the call, the prepared transaction was sent by the resolved
    wallet, and the hash returned is the one of the wallet's response. *)
Theorem transferNft_submission {W} (h : Handler W) text req chain pk w
    (cache : gmap string NftInfo) hsh :
  let r0 := run h (cacheGet (contractAddress req) chain) w cache in
  let r1 := run h (resolveOwner pk chain) (world_after r0) (cache_after r0) in
  let r := run h (transferNft text req chain pk) w cache in
  outcome r = Resolved hsh →
  ∃ info wallet owner m tx prepared response,
    outcome r0 = Resolved info ∧
    outcome r1 = Resolved (wallet, owner) ∧
    trace r =
      trace r0 ++ trace r1 ++
      [EvCall (PopulateTransaction (contract info) m) (inr tx);
       EvCall (PrepareTransaction
                 {| populated := tx; from := owner; chainId := chain |} chain)
              (inr prepared);
       EvCall (SendTransaction wallet prepared) (inr response)] ∧
    hash response = hsh.
Proof.
  intros r0 r1 r. subst r r1 r0.
  destruct (outcome (run h (cacheGet (contractAddress req) chain) w cache))
    as [info|e] eqn:H0.
  2:{ by rewrite (run_transferNft_unresolved h text req chain pk w cache e H0). }
  destruct (outcome (run h (resolveOwner pk chain)
              (world_after (run h (cacheGet (contractAddress req) chain) w cache))
              (cache_after (run h (cacheGet (contractAddress req) chain) w cache))))
    as [[wallet owner]|e] eqn:H1.
  2:{ by rewrite (run_transferNft_no_signer h text req chain pk w cache info e
                    H0 H1). }
  rewrite (run_transferNft_resolved h text req chain pk w cache info wallet
             owner H0 H1).
  cbn [outcome trace]. intros Hr.
  apply run_transferNft_rest_resolved in Hr
    as (m & tx & prepared & response & Ht & Hh).
  exists info, wallet, owner, m, tx, prepared, response.
  split_and!; [done..| |done]. by rewrite Ht.
Qed.

(** X8, witness: the batch transfer of the sample request. *)
Lemma transferNft_submission_witness :
  let r := run allSucceed (transferNft sampleText request_7_8 1 sampleSigner)
             tt ∅ in
  outcome r = Resolved "0xHASH" ∧
  sent_calls (trace r) = [(OfSigner (SignerHandle 7), Prepared 1)].
Proof.
  assert (H : outcome (run allSucceed
                         (transferNft sampleText request_7_8 1 sampleSigner) tt ∅)
              = Resolved "0xHASH") by reflexivity.
  split; [exact H|].
  destruct (transferNft_submission allSucceed sampleText request_7_8 1
              sampleSigner tt ∅ "0xHASH" H)
    as (info & wallet & owner & m & tx & prepared & response & _ & _ & _ & _).
  reflexivity.
Defined.

(** X9.  Against a SingleOwner (ERC721) binding, [amounts] plays no part: the
    transfer runs the same whatever [amounts] is.  With exactly one token id
    and a resolved signer the one call built is
    [safeTransferFrom(address,address,uint256)(owner, receiver, id)] on the
    binding's contract. *)
Theorem transferNft_single_owner_transfer {W} (h : Handler W) text req chain pk
    w (cache : gmap string NftInfo) info :
  let r0 := run h (cacheGet (contractAddress req) chain) w cache in
  let r1 := run h (resolveOwner pk chain) (world_after r0) (cache_after r0) in
  let r := run h (transferNft text req chain pk) w cache in
  outcome r0 = Resolved info →
  schema info = ERC721 →
  (∀ amounts',
     run h (transferNft text (with_amounts req amounts') chain pk) w cache = r) ∧
  (∀ wallet owner id,
     outcome r1 = Resolved (wallet, owner) →
     tokenIDs req = [id] →
     populated_calls (trace r) =
       [(contract info,
         safeTransferFrom_address_address_uint256 owner (receiver req)
           (Some id))]).
Proof.
  intros r0 r1 r H0 Hs. subst r r1 r0. split.
  - intros amounts'.
    destruct (outcome (run h (resolveOwner pk chain)
                (world_after (run h (cacheGet (contractAddress req) chain) w cache))
                (cache_after (run h (cacheGet (contractAddress req) chain) w cache))))
      as [[wallet owner]|e] eqn:H1.
    + rewrite (run_transferNft_resolved h text req chain pk w cache info wallet
                 owner H0 H1).
      rewrite (run_transferNft_resolved h text (with_amounts req amounts') chain
                 pk w cache info wallet owner H0 H1).
      by rewrite Hs.
    + rewrite (run_transferNft_no_signer h text req chain pk w cache info e H0 H1).
      by rewrite (run_transferNft_no_signer h text (with_amounts req amounts')
                    chain pk w cache info e H0 H1).
  - intros wallet owner id H1 Hid.
    rewrite (run_transferNft_resolved h text req chain pk w cache info wallet
               owner H0 H1).
    cbn [trace]. rewrite !populated_calls_app.
    destruct (cacheGet_quiet h w cache (contractAddress req) chain) as (-> & _).
    destruct (resolveOwner_quiet h
                (world_after (run h (cacheGet (contractAddress req) chain) w cache))
                (cache_after (run h (cacheGet (contractAddress req) chain) w cache))
                pk chain) as (_ & -> & _).
    rewrite Hs.
    rewrite transferSwitch_ERC721_one by (by rewrite Hid).
    rewrite Hid. exec.
Qed.

(** X9, witness: one token of the SingleOwner contract ["0x123"]. *)
Lemma transferNft_single_owner_transfer_witness :
  populated_calls
    (trace (run allSucceed (transferNft sampleText request_1 1 sampleSigner)
              tt ∅)) =
    [(contract binding_123,
      safeTransferFrom_address_address_uint256 "0xOWNER" "0xDEF" (Some "1"))].
Proof.
  refine (proj2 (transferNft_single_owner_transfer allSucceed sampleText
                   request_1 1 sampleSigner tt ∅ binding_123 _ _)
            (OfSigner (SignerHandle 7)) "0xOWNER" "1" _ _); reflexivity.
Defined.

(** X10.  A transfer whose binding does not resolve stops there, with the
    resolution's failure: the cache is as before and the only calls made are
    the schema detection and, after a successful detection, the request for
    the chain provider.  No wallet is built from the private key and no
    address is read. *)
Theorem transferNft_unresolved_stops {W} (h : Handler W) text req chain pk w
    (cache : gmap string NftInfo) e :
  let r0 := run h (cacheGet (contractAddress req) chain) w cache in
  let r := run h (transferNft text req chain pk) w cache in
  outcome r0 = Rejected e →
  outcome r = Rejected e ∧
  cache_after r = cache ∧
  addresses_read (trace r) = [] ∧
  (calls_of (trace r) = [GetNftType (contractAddress req) chain] ∨
   calls_of (trace r) =
     [GetNftType (contractAddress req) chain; GetChainProvider chain]).
Proof.
  intros r0 r H0. subst r r0.
  rewrite (run_transferNft_unresolved h text req chain pk w cache e H0).
  cbn [outcome cache_after trace].
  pose proof (cacheGet_failure_leaves_cache_aux h w cache (contractAddress req)
                chain e H0) as Hc.
  destruct (cacheGet_calls h w cache (contractAddress req) chain)
    as (Ha & Hcalls & Hne).
  split_and!; [done..|].
  destruct Hcalls as [Hnil|[?|?]]; auto. by destruct (Hne e H0).
Qed.

(** X10, witness: a transfer, from a private key, against an address that is
    no NFT contract. *)
Lemma transferNft_unresolved_stops_witness :
  let r := run allSucceed (transferNft sampleText request_nope 1 (Pk "0xKEY"))
             tt sampleCache in
  outcome r = Rejected (Error "0xNOPE is not an NFT contract") ∧
  calls_of (trace r) = [GetNftType "0xNOPE" 1].
Proof.
  destruct (transferNft_unresolved_stops allSucceed sampleText request_nope 1
              (Pk "0xKEY") tt sampleCache
              (Error "0xNOPE is not an NFT contract"))
    as (Ho & _ & _ & _); [reflexivity|].
  split; [exact Ho|reflexivity].
Defined.

(** ** What reaches the transaction service *)

Lemma run_transferNft_rest_prepared {W} (h : Handler W) text req chain w
    (cache : gmap string NftInfo) schema c wallet owner :
  let r := run h (tx ← transferSwitch text schema c owner req;
                  prepareAndSend tx owner chain wallet) w cache in
  ∀ request n, (request, n) ∈ prepared_calls (trace r) →
    n = chain ∧ chainId request = chain ∧ from request = owner.
Proof.
  intros r. subst r.
  destruct (transferSwitch_cases text schema c owner req)
    as [(_ & _ & ->)|[(_ & _ & ->)|[(_ & _ & ->)|[(_ & _ & v & _ & ->)
       |[(_ & _ & _ & ->)|(_ & _ & ->)]]]]]; unfold prepareAndSend; exec.
  all: intros request n Hin; try (by apply elem_of_nil in Hin).
  all: by apply list_elem_of_singleton in Hin as [= -> ->].
Qed.

(** X11.  Whatever a public operation hands to the transaction service is
    prepared for the chain id the operation was called with, and carries
    that chain id and, as [from], an address the signer has just told. *)
Theorem prepared_requests_stamped {W} (h : Handler W) text op w
    (cache : gmap string NftInfo) request n :
  let r := run h (perform text op) w cache in
  (request, n) ∈ prepared_calls (trace r) →
  n = op_chainId op ∧
  chainId request = op_chainId op ∧
  from request ∈ addresses_read (trace r).
Proof.
  intros r. subst r.
  destruct op as [req chain pk|req chain pk|req chain pk
                 |req chain pk|req chain pk]; cbn [perform op_chainId].
  - destruct (cacheGet_quiet h w cache (contractAddress req) chain) as (_ & Hq & _).
    destruct (outcome (run h (cacheGet (contractAddress req) chain) w cache))
      as [info|e] eqn:H0.
    2:{ rewrite (run_transferNft_unresolved h text req chain pk w cache e H0).
        cbn [trace]. rewrite Hq. by intros ?%elem_of_nil. }
    destruct (resolveOwner_quiet h
                (world_after (run h (cacheGet (contractAddress req) chain) w cache))
                (cache_after (run h (cacheGet (contractAddress req) chain) w cache))
                pk chain) as (_ & _ & Hr & _).
    destruct (outcome (run h (resolveOwner pk chain)
                (world_after (run h (cacheGet (contractAddress req) chain) w cache))
                (cache_after (run h (cacheGet (contractAddress req) chain) w cache))))
      as [[wallet owner]|e] eqn:H1.
    2:{ rewrite (run_transferNft_no_signer h text req chain pk w cache info e
                   H0 H1).
        cbn [trace]. rewrite prepared_calls_app, Hq, Hr. by intros ?%elem_of_nil. }
    rewrite (run_transferNft_resolved h text req chain pk w cache info wallet
               owner H0 H1).
    cbn [trace]. rewrite !prepared_calls_app, Hq, Hr, !addresses_read_app.
    cbn [app]. intros Hin.
    apply run_transferNft_rest_prepared in Hin as (-> & -> & ->).
    split_and!; [done..|]. rewrite !elem_of_app. right; left.
    by apply (resolveOwner_resolved h _ _ pk chain wallet owner).
  - unfold createERC1155Collection, getWallet. destruct pk; exec.
    all: by intros ?%elem_of_nil.
  - unfold mintERC1155Token, getWallet, prepareAndSend. destruct pk; exec.
    all: try (by intros ?%elem_of_nil).
    all: intros [= -> ->]%list_elem_of_singleton; split_and!; [done..|].
    all: cbn; apply list_elem_of_here.
  - unfold createERC721Collection, getWallet. destruct pk; exec.
    all: by intros ?%elem_of_nil.
  - unfold mintERC721Token, getWallet, prepareAndSend. destruct pk; exec.
    all: try (by intros ?%elem_of_nil).
    all: intros [= -> ->]%list_elem_of_singleton; split_and!; [done..|].
    all: cbn; apply list_elem_of_here.
Qed.

(** X11, witness: a mint on chain 5. *)
Lemma prepared_requests_stamped_witness :
  let r := run allSucceed
             (perform sampleText (MintERC721Token mint_request_721 5 sampleSigner))
             tt ∅ in
  prepared_calls (trace r) =
    [({| populated := {| tx_to := "0x123"; tx_data := "0xf242432a" |};
         from := "0xOWNER"; chainId := 5 |}, 5)] ∧
  "0xOWNER" ∈ addresses_read (trace r).
Proof.
  split; [reflexivity|].
  refine (proj2 (proj2 (prepared_requests_stamped allSucceed sampleText
                          (MintERC721Token mint_request_721 5 sampleSigner) tt ∅
                          {| populated := {| tx_to := "0x123";
                                             tx_data := "0xf242432a" |};
                             from := "0xOWNER"; chainId := 5 |} 5 _))).
  apply list_elem_of_singleton. reflexivity.
Defined.

(** ** Minting, call by call *)

(** X12.  A mint asks for the chain provider first and builds at most one call:
    [mint(recipient, id, amount, "0x")] on a LiqERC1155 contract, or
    [safeMint(recipient, uri)] on a LiqERC721 contract, connected at the zero
    address on the provider just obtained for [chainId] and attached to the
    request's contract address.  It never asks for the contract's schema and
    never deploys. *)
Theorem mint_calls {W} (h : Handler W) w (cache : gmap string NftInfo) chain pk :
  (∀ req,
     let r := run h (mintERC1155Token req chain pk) w cache in
     (∃ rest, calls_of (trace r) = GetChainProvider chain :: rest) ∧
     Forall (λ c, is_detection c = false ∧ is_deploy c = false)
            (calls_of (trace r)) ∧
     (populated_calls (trace r) = [] ∨
      ∃ p, EvCall (GetChainProvider chain) (inr p) ∈ trace r ∧
           populated_calls (trace r) =
             [(attach (connect LiqERC1155__factory AddressZero p)
                 (mint1155_contractAddress req),
               mint (mint1155_recipient req) (mint1155_id req)
                 (mint1155_amount req) "0x")])) ∧
  (∀ req,
     let r := run h (mintERC721Token req chain pk) w cache in
     (∃ rest, calls_of (trace r) = GetChainProvider chain :: rest) ∧
     Forall (λ c, is_detection c = false ∧ is_deploy c = false)
            (calls_of (trace r)) ∧
     (populated_calls (trace r) = [] ∨
      ∃ p, EvCall (GetChainProvider chain) (inr p) ∈ trace r ∧
           populated_calls (trace r) =
             [(attach (connect LiqERC721__factory AddressZero p)
                 (mint721_contractAddress req),
               safeMint (mint721_recipient req) (mint721_uri req))])).
Proof.
  split; intros req r; subst r;
    unfold mintERC1155Token, mintERC721Token, getWallet, prepareAndSend;
    destruct pk; exec.
  all: split_and!; [by eexists|by repeat constructor|].
  all: try (by left).
  all: right; eexists; split; [apply list_elem_of_here|done].
Qed.



(** ** Creating collections *)

(** X14.  [createERC721Collection] deploys at most once, the LiqERC721
    contract with constructor arguments [(tokenName, tokenSymbol)], from the
    wallet [getWallet] gave, and never asks the signer for its address; the
    hash it returns is the hash of the deployment transaction.
    [createERC1155Collection] deploys the LiqERC1155 contract with the one
    argument [uri], and only after the signer has told its address: when no
    address was read, nothing is deployed.  It evaluates [getWallet] twice,
    so from a private key it constructs two wallets before it returns. *)
Theorem create_collection_deploys {W} (h : Handler W) w
    (cache : gmap string NftInfo) chain pk :
  (∀ req,
     let r := run h (createERC721Collection req chain pk) w cache in
     addresses_read (trace r) = [] ∧
     (∀ f wallet args, (f, wallet, args) ∈ deploy_calls (trace r) →
        deploy_calls (trace r) = [(f, wallet, args)] ∧
        f = LiqERC721__factory ∧ args = [tokenName req; tokenSymbol req]) ∧
     (∀ hsh, outcome r = Resolved hsh →
        ∃ wallet,
          deployments (trace r) =
            [(LiqERC721__factory, wallet,
              [tokenName req; tokenSymbol req], hsh)])) ∧
  (∀ req,
     let r := run h (createERC1155Collection req chain pk) w cache in
     (addresses_read (trace r) = [] → deploy_calls (trace r) = []) ∧
     (∀ f wallet args, (f, wallet, args) ∈ deploy_calls (trace r) →
        deploy_calls (trace r) = [(f, wallet, args)] ∧
        f = LiqERC1155__factory ∧ args = [create1155_uri req]) ∧
     (∀ hsh, outcome r = Resolved hsh →
        (∃ wallet,
           deployments (trace r) =
             [(LiqERC1155__factory, wallet, [create1155_uri req], hsh)]) ∧
        (∀ key, pk = Pk key →
           ∃ p1 p2, new_wallet_calls (trace r) = [(key, p1); (key, p2)]))).
Proof.
  split; intros req r; subst r;
    unfold createERC721Collection, createERC1155Collection, getWallet;
    destruct pk; exec.
  all: split_and!; try done.
  all: try (by intros f wallet args ?%elem_of_nil).
  all: try (by intros f wallet args [= -> -> ->]%list_elem_of_singleton).
  all: try (intros hsh [= <-]; by eexists).
  all: intros hsh [= <-]; split; [by eexists|].
  all: intros key [= <-]; by eexists _, _.
Qed.

(** X14, witness: a multi-owner collection created from a private key. *)
Lemma create_collection_deploys_witness :
  let r := run allSucceed
             (createERC1155Collection create_request_1155 1 (Pk "0xKEY")) tt ∅ in
  outcome r = Resolved "0xDEPLOY" ∧
  deployments (trace r) =
    [(LiqERC1155__factory, OfWallet (WalletHandle 1), ["ipfs://base/"],
      "0xDEPLOY")] ∧
  new_wallet_calls (trace r) =
    [("0xKEY", ProviderHandle 1); ("0xKEY", ProviderHandle 1)].
Proof.
  assert (H : outcome (run allSucceed
                         (createERC1155Collection create_request_1155 1
                            (Pk "0xKEY")) tt ∅)
              = Resolved "0xDEPLOY") by reflexivity.
  split; [exact H|].
  destruct (proj2 (create_collection_deploys allSucceed tt ∅ 1 (Pk "0xKEY"))
              create_request_1155) as (_ & _ & Hres).
  destruct (Hres "0xDEPLOY" H) as ((wallet & Hd) & Hw).
  destruct (Hw "0xKEY" eq_refl) as (p1 & p2 & Hn).
  split; reflexivity.
Defined.

(** ** Signers *)

Lemma avoids_cacheGet bad a chain :
  bad (GetNftType a chain) = false →
  bad (GetChainProvider chain) = false →
  avoids bad (cacheGet a chain).
Proof.
  intros Hd Hp [info|]; cbn; [done|]. split; [done|intros t].
  case_decide; cbn; auto.
Qed.

Lemma beside_signer_false s c :
  beside_signer s c = false →
  is_new_wallet c = false ∧ (∀ w, call_wallet c = Some w → w = OfSigner s).
Proof.
  unfold beside_signer. intros [Hn Hw]%orb_false_iff. split; [done|].
  intros wl Hc. rewrite Hc in Hw. destruct wl as [wh|[id]]; [done|].
  destruct s as [id']. apply negb_false_iff, N.eqb_eq in Hw. by subst.
Qed.

Lemma beside_signer_self s c :
  call_wallet c = Some (OfSigner s) → beside_signer s c = false.
Proof.
  unfold beside_signer. intros Hc. rewrite Hc. destruct s as [id].
  destruct c; try done; cbn; by rewrite N.eqb_refl.
Qed.

(** X15.  Given a signer instead of a private key, no public operation builds
    a wallet, and every call it makes on a wallet, reading the address,
    sending, deploying, is made on that very signer, whatever the chain id:
    the signer is used as it came. *)
Theorem signer_used_as_given {W} (h : Handler W) text op w
    (cache : gmap string NftInfo) s :
  op_pkOrSigner op = RpcSigner s →
  Forall (λ c, is_new_wallet c = false ∧
               ∀ wallet, call_wallet c = Some wallet → wallet = OfSigner s)
         (calls_of (trace (run h (perform text op) w cache))).
Proof.
  intros Hs.
  eapply Forall_impl; [|intros c; apply beside_signer_false].
  apply avoids_run.
  destruct op as [req chain pk|req chain pk|req chain pk
                 |req chain pk|req chain pk]; cbn in Hs; subst pk;
    cbn [perform].
  - unfold transferNft. apply avoids_bind; [by apply avoids_cacheGet|].
    intros info. cbn -[transferSwitch beside_signer]. split; [by apply beside_signer_self|].
    intros owner. apply avoids_bind; [by apply avoids_transferSwitch|].
    intros tx. cbn -[beside_signer]. split_and!; auto. intros x. split; [|done].
    by apply beside_signer_self.
  - cbn -[beside_signer]. split; [by apply beside_signer_self|]. intros owner.
    split; [by apply beside_signer_self|done].
  - cbn -[beside_signer]. split; [done|intros p]. split; [by apply beside_signer_self|].
    intros owner. split; [done|intros tx]. split; [done|intros x].
    split; [by apply beside_signer_self|done].
  - cbn -[beside_signer]. split; [by apply beside_signer_self|done].
  - cbn -[beside_signer]. split; [done|intros p]. split; [by apply beside_signer_self|].
    intros owner. split; [done|intros tx]. split; [done|intros x].
    split; [by apply beside_signer_self|done].
Qed.

(** X15, witness: the calls of a single-owner mint given a signer. *)
Lemma signer_used_as_given_witness :
  calls_of
    (trace (run allSucceed
              (perform sampleText (MintERC721Token mint_request_721 1 sampleSigner))
              tt ∅)) =
    [GetChainProvider 1;
     GetAddress (OfSigner (SignerHandle 7));
     PopulateTransaction (sampleContract LiqERC721__factory "0x123" 1)
       (safeMint "0xDEF" "ipfs://token");
     PrepareTransaction
       {| populated := {| tx_to := "0x123"; tx_data := "0xf242432a" |};
          from := "0xOWNER"; chainId := 1 |} 1;
     SendTransaction (OfSigner (SignerHandle 7)) (Prepared 1)] ∧
  Forall (λ c, is_new_wallet c = false ∧
               ∀ wallet, call_wallet c = Some wallet →
                         wallet = OfSigner (SignerHandle 7))
         (calls_of
            (trace (run allSucceed
                      (perform sampleText
                         (MintERC721Token mint_request_721 1 sampleSigner))
                      tt ∅))).
Proof.
  split; [reflexivity|].
  exact (signer_used_as_given allSucceed sampleText
           (MintERC721Token mint_request_721 1 sampleSigner) tt ∅
           (SignerHandle 7) eq_refl).
Defined.

(** X16.  [getWallet] from a private key asks for the provider of the chain
    id it was given and constructs the wallet from the key on that provider,
    in this order and with nothing else: when the provider cannot be
    obtained no wallet is constructed.  From a signer it makes no call at
    all and returns the signer for every chain id.  Either way the cache is
    not touched. *)
Theorem getWallet_private_key {W} (h : Handler W) w (cache : gmap string NftInfo)
    chain :
  (∀ key,
     let r := run h (getWallet (Pk key) chain) w cache in
     cache_after r = cache ∧
     (∀ wallet, outcome r = Resolved wallet →
        ∃ p built,
          wallet = OfWallet built ∧
          trace r = [EvCall (GetChainProvider chain) (inr p);
                     EvCall (NewWallet key p) (inr built)]) ∧
     (∀ e, rejection (trace r) = Some (GetChainProvider chain, e) →
        new_wallet_calls (trace r) = [] ∧ outcome r = Rejected e)) ∧
  (∀ s,
     run h (getWallet (RpcSigner s) chain) w cache =
       {| outcome := Resolved (OfSigner s); cache_after := cache;
          world_after := w; trace := [] |}).
Proof.
  split; [|done]. intros key r. subst r. unfold rejection. exec.
  all: split_and!; try done.
  - intros e' [= ->]. done.
  - intros wallet [= <-]. by eexists _, _.
Qed.

(** X16, witness: the provider factory rejects, and the private key is not
    used. *)
Lemma getWallet_private_key_witness :
  let r := run providerRejects (getWallet (Pk "0xKEY") 1) tt ∅ in
  new_wallet_calls (trace r) = [] ∧
  outcome r = Rejected (Error "unsupported chain").
Proof.
  destruct (proj1 (getWallet_private_key providerRejects tt ∅ 1) "0xKEY")
    as (_ & _ & Hrej).
  apply Hrej. reflexivity.
Defined.

(** * The cache as a plain object *)

(** ** Inherited names *)

(** On an address that is the name of an inherited property and is not
    stored, the resolution hits the inherited value: no collaborator is
    called and nothing is written. *)
Lemma cacheGet_js_inherited {W} (h : Handler W) w (cache : gmap string NftInfo)
    a chain :
  a ∈ Object_prototype_names →
  cache !! a = None →
  run h (cacheGet_js a chain) w cache =
    {| outcome := Resolved (Some (Inherited a)); cache_after := cache;
       world_after := w; trace := [EvRead a None; EvRead a None] |}.
Proof.
  intros Hin Hnone. cbn. rewrite Hnone. cbn. case_decide; [|done].
  cbn. rewrite Hnone. cbn. by case_decide.
Qed.

(** X22.  A transfer whose contract address is the name of an inherited
    property, on a cache that does not store it, in any environment: the
    registry is not asked, nothing is stored, and once the signer has
    resolved the transfer fails with the unsupported-type error for the
    schema [undefined]. *)
Theorem inherited_name_skips_detection {W} (h : Handler W) text req chain pk w
    (cache : gmap string NftInfo) :
  contractAddress req ∈ Object_prototype_names →
  cache !! contractAddress req = None →
  let r := run h (transferNft_js text req chain pk) w cache in
  detections (trace r) = [] ∧
  cache_after r = cache ∧
  (∀ wallet owner,
     outcome (run h (resolveOwner pk chain) w cache) = Resolved (wallet, owner) →
     outcome r = Rejected UnsupportedUndefined).
Proof.
  intros Hin Hnone r. subst r. unfold transferNft_js.
  rewrite run_bind, (cacheGet_js_inherited h w cache _ chain Hin Hnone).
  cbn -[getWallet]. unfold transferNft_with, resolveOwner, getWallet.
  destruct pk; exec.
  all: split_and!; try done.
  all: by intros ? ? [= <- <-].
Qed.

(** X22, witness: ["toString"] on the sample cache. *)
Lemma inherited_name_skips_detection_witness :
  let r := run allSucceed
             (transferNft_js sampleText (request_7_8_on "toString") 1
                sampleSigner) tt sampleCache in
  ("toString" ∈ Object_prototype_names) ∧
  detections (trace r) = [] ∧
  outcome r = Rejected UnsupportedUndefined.
Proof.
  assert (Hin : contractAddress (request_7_8_on "toString")
                ∈ Object_prototype_names).
  { do 6 apply list_elem_of_further. apply list_elem_of_here. }
  destruct (inherited_name_skips_detection allSucceed sampleText
              (request_7_8_on "toString") 1 sampleSigner tt sampleCache
              Hin eq_refl) as (Hd & _ & Ho).
  split; [exact Hin|]. split; [exact Hd|].
  exact (Ho (OfSigner (SignerHandle 7)) "0xOWNER" eq_refl).
Defined.

(** ** Stored entries *)

(** Off the inherited names [cacheGet_js] is [cacheGet]: the same calls with
    the same answers, the same writes, the same result, one more read of the
    cache for each [return]. *)
Lemma cacheGet_js_cacheGet {W} (h : Handler W) w (cache : gmap string NftInfo)
    a chain :
  a ∉ Object_prototype_names →
  let rj := run h (cacheGet_js a chain) w cache in
  let r := run h (cacheGet a chain) w cache in
  outcome rj = match outcome r with
               | Resolved info => Resolved (Some (Stored info))
               | Rejected e => Rejected e
               end ∧
  cache_after rj = cache_after r ∧
  world_after rj = world_after r ∧
  without_reads (trace rj) = without_reads (trace r).
Proof.
  intros Hout. cbn. destruct (cache !! a) as [info|] eqn:Hc; cbn.
  { by rewrite Hc. }
  case_decide; [done|]. cbn. ask; cbn; [done|].
  case_decide; cbn; [|done]. ask; cbn; [done|].
  by rewrite lookup_insert_eq.
Qed.

Lemma without_reads_app (t1 t2 : list Event) :
  without_reads (t1 ++ t2) = without_reads t1 ++ without_reads t2.
Proof. unfold without_reads. by rewrite omap_app. Qed.

(** X17.  For a contract address that is not the name of an inherited
    property, the transfer on the plain-object cache is the transfer on the
    stored entries: it has the same outcome, leaves the same cache and the
    same environment, and makes the same calls and writes in the same order
    with the same answers; only the number of cache reads differs. *)
Theorem transferNft_js_transferNft {W} (h : Handler W) text req chain pk w
    (cache : gmap string NftInfo) :
  contractAddress req ∉ Object_prototype_names →
  let rj := run h (transferNft_js text req chain pk) w cache in
  let r := run h (transferNft text req chain pk) w cache in
  outcome rj = outcome r ∧
  cache_after rj = cache_after r ∧
  world_after rj = world_after r ∧
  without_reads (trace rj) = without_reads (trace r).
Proof.
  intros Hout rj r. subst rj r. unfold transferNft_js, transferNft.
  rewrite !run_bind.
  destruct (cacheGet_js_cacheGet h w cache (contractAddress req) chain Hout)
    as (Ho & Hc & Hw & Ht).
  rewrite Ho.
  destruct (outcome (run h (cacheGet (contractAddress req) chain) w cache))
    as [info|e]; cbn [outcome cache_after world_after trace];
    [|by rewrite Hc, Hw].
  rewrite Hc, Hw, !without_reads_app, Ht. done.
Qed.

Lemma transferNft_js_transferNft_witness :
  let rj := run allSucceed (transferNft_js sampleText request_7_8 1 sampleSigner)
              tt ∅ in
  let r := run allSucceed (transferNft sampleText request_7_8 1 sampleSigner)
             tt ∅ in
  ("0xABC" ∉ Object_prototype_names) ∧
  outcome rj = Resolved "0xHASH" ∧
  outcome rj = outcome r ∧
  cache_after rj = cache_after r.
Proof.
  assert (Hout : contractAddress request_7_8 ∉ Object_prototype_names).
  { intros H. repeat (apply elem_of_cons in H as [H|H]; [done|]).
    by apply elem_of_nil in H. }
  split; [exact Hout|]. split; [reflexivity|].
  destruct (transferNft_js_transferNft allSucceed sampleText request_7_8 1
              sampleSigner tt ∅ Hout) as (Ho & Hc & _).
  split; [exact Ho|exact Hc].
Defined.

(** * Operations that overlap *)

Lemma writes_bind {A B} P (p : Prog A) (f : A → Prog B) :
  writes P p → (∀ x, writes P (f x)) → writes P (p ≫= f).
Proof.
  intros Hp Hf. induction p as [x|e|key k IH|key info k IH|c k IH]; cbn in *.
  - apply Hf.
  - done.
  - intros found. by apply IH.
  - destruct Hp as [? ?]. split; [done|]. by apply IH.
  - intros x. by apply IH.
Qed.

Lemma cache_free_writes {R} P (p : Prog R) : cache_free p → writes P p.
Proof.
  induction p as [x|e|key k IH|key info k IH|c k IH]; cbn; try done.
  intros Hp x. by apply IH.
Qed.

Lemma writes_impl {R} (P Q : string → NftInfo → Prop) (p : Prog R) :
  (∀ key info, P key info → Q key info) → writes P p → writes Q p.
Proof.
  intros HPQ.
  induction p as [x|e|key k IH|key info k IH|c k IH]; cbn; try done.
  - intros Hp found. by apply IH.
  - intros [? ?]. split; [by apply HPQ|by apply IH].
  - intros Hp x. by apply IH.
Qed.

(** The only write of a resolution stores a binding for the address. *)
Lemma writes_cacheGet_js a chain :
  writes (λ key info, binding_of key info ∧ key = a) (cacheGet_js a chain).
Proof.
  unfold cacheGet_js. cbn. intros found.
  destruct found as [info|]; cbn; [done|].
  case_decide as Hin; cbn; [done|].
  intros nftType. case_decide as Hs; cbn; [|done].
  intros p. split; [|done]. split; [|done].
  unfold binding_of. cbn. split_and!; try done.
Qed.

Lemma cache_free_transferNft_with text req chain pk value :
  cache_free (transferNft_with text req chain pk value).
Proof.
  unfold transferNft_with.
  apply cache_free_bind; [apply cache_free_getWallet|]. intros wallet.
  apply cache_free_bind; [apply cache_free_call|]. intros owner.
  apply cache_free_bind.
  - destruct value; [apply cache_free_transferSwitch|done].
  - intros tx. apply cache_free_prepareAndSend.
Qed.

Lemma writes_transferNft_js text req chain pk :
  writes (λ key info, binding_of key info ∧ key = contractAddress req)
    (transferNft_js text req chain pk).
Proof.
  unfold transferNft_js. apply writes_bind; [apply writes_cacheGet_js|].
  intros [value|]; [|done].
  apply cache_free_writes, cache_free_transferNft_with.
Qed.

Lemma writes_perform_js text op :
  writes (λ key info, binding_of key info ∧ resolved_address op = Some key)
    (perform_js text op).
Proof.
  destruct op as [req chain pk|req chain pk|req chain pk|req chain pk
                 |req chain pk]; cbn [perform_js perform].
  - eapply writes_impl; [|apply writes_transferNft_js].
    cbn. by intros key info [? ->].
  - apply cache_free_writes, cache_free_createERC1155Collection.
  - apply cache_free_writes, cache_free_mintERC1155Token.
  - apply cache_free_writes, cache_free_createERC721Collection.
  - apply cache_free_writes, cache_free_mintERC721Token.
Qed.

Lemma grown_from_start {W} P (ps : list (Prog string)) (w : W) cache :
  Forall (writes P) ps → grown_from P cache (start ps w cache).
Proof.
  intros Hps. split_and!; cbn; [|done|by left].
  apply Forall_fmap. by eapply Forall_impl.
Qed.

Lemma grown_from_turn {W} (h : Handler W) P cache i (s : Pool W) :
  grown_from P cache s → grown_from P cache (turn h i s).
Proof.
  intros (Ht & Hk & He). unfold turn.
  destruct (tasks s !! i) as [[p|o]|] eqn:Hi; [|done..].
  assert (Hp : writes P p) by exact (proj1 (Forall_lookup _ _) Ht _ _ Hi).
  destruct p as [x|e|key k|key info k|c k]; cbn in Hp.
  - split_and!; cbn; [by apply Forall_insert|done..].
  - split_and!; cbn; [by apply Forall_insert|done..].
  - split_and!; cbn; [apply Forall_insert; [done|apply Hp]|done..].
  - destruct Hp as [HP Hw]. split_and!; cbn.
    + by apply Forall_insert.
    + intros a Ha. apply lookup_insert_is_Some.
      destruct (decide (key = a)); [by left|right]. split; [done|by apply Hk].
    + intros a info' Ha. destruct (decide (key = a)) as [<-|Hne].
      * rewrite lookup_insert_eq in Ha. injection Ha as <-. by right.
      * rewrite lookup_insert_ne in Ha by done. by apply He.
  - destruct (h c (pool_world s)) as [[e|x] w'].
    + split_and!; cbn; [by apply Forall_insert|done..].
    + split_and!; cbn; [apply Forall_insert; [done|apply Hp]|done..].
Qed.

Lemma grown_from_interleave {W} (h : Handler W) P cache schedule (s : Pool W) :
  grown_from P cache s → grown_from P cache (interleave h schedule s).
Proof.
  revert s. induction schedule as [|i schedule IH]; intros s Hs; cbn; [done|].
  by apply IH, grown_from_turn.
Qed.

Lemma resolved_addresses_elem (ops : list Operation) op key :
  op ∈ ops → resolved_address op = Some key → key ∈ resolved_addresses ops.
Proof.
  intros Hop Hkey. unfold resolved_addresses. apply list_elem_of_omap.
  by exists op.
Qed.

(** X3.  Whatever operations overlap and however their steps interleave,
    the cache never loses an address: one that has an entry keeps having
    one.  An entry found afterwards is the one it started with or a
    binding stored by a resolution: with a supported schema, made for the
    address it is stored under with the interface of its schema, and under
    the contract address of one of the transfers.  Mints and deployments
    store nothing, and nothing is ever stored under an inherited name. *)
Theorem overlapping_operations_never_evict {W} (h : Handler W) text
    (ops : list Operation) (schedule : list nat) w
    (cache : gmap string NftInfo) :
  let s := interleave h schedule (start (perform_js text <$> ops) w cache) in
  (∀ a, is_Some (cache !! a) → is_Some (pool_cache s !! a)) ∧
  (∀ a info, pool_cache s !! a = Some info →
     cache !! a = Some info ∨
     (binding_of a info ∧ a ∈ resolved_addresses ops)) ∧
  (∀ a, a ∈ Object_prototype_names → pool_cache s !! a = cache !! a).
Proof.
  intros s.
  assert (Hs : grown_from
                 (λ key info, binding_of key info ∧ key ∈ resolved_addresses ops)
                 cache s).
  { apply grown_from_interleave, grown_from_start.
    apply Forall_fmap, Forall_forall. intros op Hop.
    eapply writes_impl; [|apply writes_perform_js].
    cbn. intros key info [? Hkey]. split; [done|].
    by eapply resolved_addresses_elem. }
  destruct Hs as (_ & Hk & He). split_and!; [done|done|].
  intros a Hin. destruct (pool_cache s !! a) as [info|] eqn:Ha.
  - destruct (He _ _ Ha) as [->|[(_ & Hout & _) _]]; [done|].
    by destruct Hout.
  - destruct (cache !! a) as [info|] eqn:Hc; [|done].
    destruct (Hk a) as [? Hsome]; [by rewrite Hc|]. by rewrite Ha in Hsome.
Qed.

(** X3, witness: the entry of ["0x123"] in the sample cache, across two
    overlapping transfers on ["0xABC"]. *)
Lemma overlapping_operations_never_evict_witness :
  let ops := [TransferNft request_7_8 1 sampleSigner;
              TransferNft request_7_8 5 sampleSigner] in
  let s := interleave allSucceed overlapping
             (start (perform_js sampleText <$> ops) tt sampleCache) in
  is_Some (sampleCache !! "0x123") ∧ is_Some (pool_cache s !! "0x123").
Proof.
  assert (H : is_Some (sampleCache !! "0x123")) by (eexists; reflexivity).
  split; [exact H|].
  exact (proj1 (overlapping_operations_never_evict allSucceed sampleText
                  [TransferNft request_7_8 1 sampleSigner;
                   TransferNft request_7_8 5 sampleSigner]
                  overlapping tt sampleCache) "0x123" H).
Defined.

(** ** Two resolutions of one address *)

(** X18.  Two transfers on the same contract, not cached, each resolving
    while the other waits for the registry: both query the registry, both
    store a binding, and the second store replaces the first.  The first
    transfer goes on with the binding it stored, which is no longer the
    cached one, and the cache keeps the binding of the second, made with
    the provider of the second transfer's chain. *)
Theorem overlapping_resolutions_overwrite {W} (h : Handler W) text
    req1 req2 chain1 chain2 pk1 pk2 w w1 w2 w3 w4
    (cache : gmap string NftInfo) a t1 t2 p1 p2 :
  contractAddress req1 = a →
  contractAddress req2 = a →
  a ∉ Object_prototype_names →
  cache !! a = None →
  h (GetNftType a chain1) w = (inr t1, w1) →
  h (GetNftType a chain2) w1 = (inr t2, w2) →
  t1 ≠ UNKNOWN →
  t2 ≠ UNKNOWN →
  h (GetChainProvider chain1) w2 = (inr p1, w3) →
  h (GetChainProvider chain2) w3 = (inr p2, w4) →
  let s := interleave h overlapping
             (start [transferNft_js text req1 chain1 pk1;
                     transferNft_js text req2 chain2 pk2] w cache) in
  let first := resolved_binding a t1 p1 in
  let second := resolved_binding a t2 p2 in
  tasks s = [Running (transferNft_with text req1 chain1 pk1 (Stored first));
             Running (transferNft_with text req2 chain2 pk2 (Stored second))] ∧
  detections (pool_trace s) = [(a, chain1, t1); (a, chain2, t2)] ∧
  cache_writes (pool_trace s) = [(a, first); (a, second)] ∧
  pool_cache s = <[a:=second]> cache.
Proof.
  intros <- Ha Hout Hnone Hd1 Hd2 Ht1 Ht2 Hp1 Hp2 s first second.
  subst s first second. unfold overlapping, start, transferNft_js, cacheGet_js.
  rewrite Ha.
  repeat (cbn -[transferNft_with];
          first [ rewrite Hnone | rewrite Hd1 | rewrite Hd2 | rewrite Hp1
                | rewrite Hp2 | rewrite lookup_insert_eq
                | case_decide; try done ]).
  all: rewrite insert_insert_eq; unfold resolved_binding, factory_of.
  all: by repeat case_decide.
Qed.

(** X18, witness: two batch transfers on ["0xABC"], on chains 1 and 5; the
    cache ends with the binding made for chain 5. *)
Lemma overlapping_resolutions_overwrite_witness :
  let s := interleave allSucceed overlapping
             (start [transferNft_js sampleText request_7_8 1 sampleSigner;
                     transferNft_js sampleText request_7_8 5 sampleSigner]
                tt ∅) in
  cache_writes (pool_trace s)
    = [("0xABC", resolved_binding "0xABC" ERC1155 (ProviderHandle 1));
       ("0xABC", resolved_binding "0xABC" ERC1155 (ProviderHandle 5))] ∧
  pool_cache s
    = <["0xABC":=resolved_binding "0xABC" ERC1155 (ProviderHandle 5)]> ∅.
Proof.
  assert (Hout : "0xABC" ∉ Object_prototype_names).
  { intros H. repeat (apply elem_of_cons in H as [H|H]; [done|]).
    by apply elem_of_nil in H. }
  refine (proj2 (proj2 (overlapping_resolutions_overwrite allSucceed sampleText
            request_7_8 request_7_8 1 5 sampleSigner sampleSigner
            tt tt tt tt tt ∅ "0xABC" ERC1155 ERC1155
            (ProviderHandle 1) (ProviderHandle 5)
            _ _ Hout _ _ _ _ _ _ _))); try reflexivity; done.
Defined.

(** ** One operation alone *)



(** ** What the cache holds *)

(** X20.  From the empty cache, whatever operations overlap and however
    their steps interleave, every entry the cache holds has schema ERC721
    or ERC1155, and the [switch] of [transferNft] on it does not take the
    default branch. *)
Theorem stored_entries_have_supported_schemas {W} (h : Handler W) text
    (ops : list Operation) (schedule : list nat) w a info :
  pool_cache (interleave h schedule (start (perform_js text <$> ops) w ∅)) !! a
    = Some info →
  (schema info = ERC721 ∨ schema info = ERC1155) ∧
  ∀ c owner req,
    transferSwitch text (schema info) c owner req
    ≠ Throw (UnsupportedSchema text (schema info)).
Proof.
  intros Ha.
  assert (Hs : grown_from binding_of ∅
                 (interleave h schedule (start (perform_js text <$> ops) w ∅))).
  { apply grown_from_interleave, grown_from_start.
    apply Forall_fmap, Forall_forall. intros op Hop.
    eapply writes_impl; [|apply writes_perform_js]. cbn. by intros ? ? [? _]. }
  destruct Hs as (_ & _ & He).
  destruct (He _ _ Ha) as [Hempty|(Hs & _)]; [by rewrite lookup_empty in Hempty|].
  split; [by apply NftType_supported|].
  intros c owner req.
  destruct (transferSwitch_cases text (schema info) c owner req)
    as [(_ & _ & ->)|[(_ & _ & ->)|[(_ & _ & ->)|[(_ & _ & v & _ & ->)
       |[(_ & _ & _ & ->)|(H1 & H2 & _)]]]]]; try done.
  by destruct (NftType_supported _ Hs).
Qed.

(** X20, witness: the entry left by the two overlapping transfers. *)
Lemma stored_entries_have_supported_schemas_witness :
  let ops := [TransferNft request_7_8 1 sampleSigner;
              TransferNft request_7_8 5 sampleSigner] in
  let s := interleave allSucceed overlapping
             (start (perform_js sampleText <$> ops) tt ∅) in
  let info := resolved_binding "0xABC" ERC1155 (ProviderHandle 5) in
  pool_cache s !! "0xABC" = Some info ∧
  (schema info = ERC721 ∨ schema info = ERC1155).
Proof.
  cbn zeta.
  assert (Ha : pool_cache
                 (interleave allSucceed overlapping
                    (start (perform_js sampleText <$>
                              [TransferNft request_7_8 1 sampleSigner;
                               TransferNft request_7_8 5 sampleSigner]) tt ∅))
               !! "0xABC"
               = Some (resolved_binding "0xABC" ERC1155 (ProviderHandle 5)))
    by reflexivity.
  split; [exact Ha|].
  exact (proj1 (stored_entries_have_supported_schemas allSucceed sampleText
                  _ overlapping tt "0xABC" _ Ha)).
Defined.

(** X21.  What a resolution returns, on a cache whose entries have a
    supported schema: either the address is the name of an inherited
    property that is not stored, and the value is the inherited one; or
    the value is the entry stored under the address, its schema is ERC721
    or ERC1155, and the [switch] on it does not take the default branch. *)
Theorem cacheGet_js_returns {W} (h : Handler W) text w
    (cache : gmap string NftInfo) a chain hit :
  (∀ key info, cache !! key = Some info → schema info ≠ UNKNOWN) →
  let r := run h (cacheGet_js a chain) w cache in
  outcome r = Resolved hit →
  (a ∈ Object_prototype_names ∧ cache !! a = None ∧
   hit = Some (Inherited a) ∧ cache_after r = cache) ∨
  (∃ info,
     hit = Some (Stored info) ∧
     cache_after r !! a = Some info ∧
     (schema info = ERC721 ∨ schema info = ERC1155) ∧
     ∀ c owner req,
       transferSwitch text (schema info) c owner req
       ≠ Throw (UnsupportedSchema text (schema info))).
Proof.
  intros Hsup r Hres. subst r.
  assert (Hcase :
    (a ∈ Object_prototype_names ∧ cache !! a = None ∧
     hit = Some (Inherited a) ∧
     cache_after (run h (cacheGet_js a chain) w cache) = cache) ∨
    (∃ info, hit = Some (Stored info) ∧
       cache_after (run h (cacheGet_js a chain) w cache) !! a = Some info ∧
       schema info ≠ UNKNOWN)).
  { revert Hres. cbn. destruct (cache !! a) as [info|] eqn:Hc; cbn.
    { rewrite Hc. cbn. intros [= <-]. right. exists info.
      split_and!; [done|done|by eapply Hsup]. }
    case_decide as Hin; cbn.
    { rewrite Hc. cbn. case_decide; [|done]. cbn. intros [= <-]. by left. }
    ask; cbn; [done|]. case_decide as Hs; cbn; [|done].
    ask; cbn; [done|]. intros Hres. rewrite lookup_insert_eq in Hres.
    cbn in Hres. injection Hres as <-. right. eexists.
    split_and!; [done| |done]. by rewrite lookup_insert_eq. }
  destruct Hcase as [?|(info & -> & Ha & Hs)]; [by left|right].
  exists info. split_and!; [done|done|by apply NftType_supported|].
  intros c owner req.
  destruct (transferSwitch_cases text (schema info) c owner req)
    as [(_ & _ & ->)|[(_ & _ & ->)|[(_ & _ & ->)|[(_ & _ & v & _ & ->)
       |[(_ & _ & _ & ->)|(H1 & H2 & _)]]]]]; try done.
  by destruct (NftType_supported _ Hs).
Qed.

(** X21, witness: the inherited name on the empty cache. *)
Lemma cacheGet_js_returns_witness :
  let r := run allSucceed (cacheGet_js "constructor" 1) tt ∅ in
  outcome r = Resolved (Some (Inherited "constructor")) ∧
  ("constructor" ∈ Object_prototype_names).
Proof.
  cbn zeta.
  assert (Hres : outcome (run allSucceed (cacheGet_js "constructor" 1) tt ∅)
                 = Resolved (Some (Inherited "constructor"))) by reflexivity.
  split; [exact Hres|].
  assert (Hsup : ∀ key info, (∅ : gmap string NftInfo) !! key = Some info →
                 schema info ≠ UNKNOWN).
  { intros key info H. by rewrite lookup_empty in H. }
  destruct (cacheGet_js_returns allSucceed sampleText tt ∅ "constructor" 1 _
              Hsup
              Hres) as [(Hin & _)|(info & Hhit & _)].
  - exact Hin.
  - discriminate Hhit.
Defined.
